(** * The employee data service of the gRPC demo server

    A shallow embedding of [Real-life-Example/server.py]: the record
    generator [_generate_sample_data] and the server-streaming handler
    [StreamLargeData], with the claims of the specification proved (or
    refuted) over them.

    Python integers are [Z], Python [str] is [string], Python lists are
    [list].  The module-level random generator is threaded explicitly as
    a state ([Rng]), and so are the console and the wall clock ([World]).
    The handler is a Python generator: its consumer is modelled by the
    answer it gives at every [yield] ([Resume]). *)

From Stdlib Require Import ZArith NArith List String Ascii Bool Lia.
From Stdlib Require Import DecimalString DecimalN Sorted.
Import ListNotations.

#[local] Open Scope string_scope.
#[local] Open Scope list_scope.
#[local] Open Scope Z_scope.

(* ===================================================================== *)
(** * Python strings: formatting, splitting, parsing *)
(* ===================================================================== *)

Module PyStr.

(** The decimal digits of a natural number, most significant first. *)
Definition digits (n : N) : string :=
  NilEmpty.string_of_uint (N.to_uint n).

(** [str(i)] and the replacement field [{i}] for an integer. *)
Definition str_int (z : Z) : string :=
  if z <? 0 then String "-" (digits (Z.abs_N z)) else digits (Z.to_N z).

Fixpoint zeros (k : nat) : string :=
  match k with
  | O => EmptyString
  | S k' => String "0" (zeros k')
  end.

(** Left padding with ["0"] up to [w] characters. *)
Definition zero_pad (w : nat) (s : string) : string :=
  (zeros (w - String.length s) ++ s)%string.

(** The replacement field [{z:0wd}]: sign-aware zero padding to width [w]. *)
Definition fmt_0d (w : nat) (z : Z) : string :=
  if z <? 0 then String "-" (zero_pad (w - 1) (digits (Z.abs_N z)))
  else zero_pad w (digits (Z.to_N z)).

(** Thousands separators: a comma in front of every group of three digits
    counted from the right, except in front of the first digit. *)
Fixpoint commas (s : string) : string :=
  match s with
  | EmptyString => EmptyString
  | String c s' =>
      String c
        (if (0 <? String.length s')%nat && (String.length s' mod 3 =? 0)%nat
         then String "," (commas s')
         else commas s')
  end.

(** The replacement field [{z:,}]. *)
Definition fmt_comma (z : Z) : string :=
  if z <? 0 then String "-" (commas (digits (Z.abs_N z)))
  else commas (digits (Z.to_N z)).

(** [s.split(sep)] for a non-empty [sep]: the pieces of [s] between the
    occurrences of [sep], scanned from the left without overlap.  [skip]
    counts the characters of a matched separator still to be dropped.
    (Python raises [ValueError] on an empty separator; the function is only
    used with [" | "], [": "] and ["-"].) *)
Fixpoint split_from (sep : string) (skip : nat) (s : string) : list string :=
  match s with
  | EmptyString => [EmptyString]
  | String c s' =>
      match skip with
      | S k => split_from sep k s'
      | O =>
          if prefix sep s
          then EmptyString :: split_from sep (String.length sep - 1) s'
          else match split_from sep 0 s' with
               | f :: fs => String c f :: fs
               | [] => [String c EmptyString]
               end
      end
  end.

Definition split (sep s : string) : list string := split_from sep 0 s.

(** [int(s)] on an unsigned decimal numeral (leading zeros allowed);
    [None] where Python raises [ValueError]. *)
Definition parse_nat (s : string) : option Z :=
  match s with
  | EmptyString => None
  | _ => option_map (fun d => Z.of_N (N.of_uint d)) (NilEmpty.uint_of_string s)
  end.

Fixpoint remove_char (c : ascii) (s : string) : string :=
  match s with
  | EmptyString => EmptyString
  | String a s' =>
      if Ascii.eqb a c then remove_char c s' else String a (remove_char c s')
  end.

(** Does the character [c] occur in [s]? *)
Fixpoint occurs (c : ascii) (s : string) : bool :=
  match s with
  | EmptyString => false
  | String a s' => Ascii.eqb a c || occurs c s'
  end.

(** The characters ["0"] to ["9"]. *)
Definition is_digit (a : ascii) : bool :=
  (48 <=? nat_of_ascii a)%nat && (nat_of_ascii a <=? 57)%nat.

Fixpoint all_digits (s : string) : bool :=
  match s with
  | EmptyString => true
  | String a s' => is_digit a && all_digits s'
  end.

(** The characters that no formatted integer holds: a formatted integer is
    made of digits, and at most a sign and commas. *)
Definition plain (c : ascii) : bool :=
  negb (is_digit c) && negb (Ascii.eqb "-" c) && negb (Ascii.eqb "," c).

End PyStr.

(* ===================================================================== *)
(** * Python's [range] and [random] *)
(* ===================================================================== *)

Module Py.

(** [range(start, stop)] as the list of its elements. *)
Definition range (start stop : Z) : list Z :=
  map (fun k => start + Z.of_nat k) (seq 0 (Z.to_nat (stop - start))).

(** The state of the module-level generator of [random].  The program never
    seeds it, so nothing is known about the numbers it delivers: [tape] is
    an arbitrary sequence of raw values and [pos] the number of values
    consumed so far. *)
Record Rng : Type := mkRng { tape : nat -> Z; pos : nat }.

(** Computations that draw random numbers. *)
Definition M (A : Type) : Type := Rng -> A * Rng.

Definition ret {A} (a : A) : M A := fun g => (a, g).

Definition bind {A B} (m : M A) (k : A -> M B) : M B :=
  fun g => let (a, g') := m g in k a g'.

(** [random._randbelow(n)]: some integer of [0, n) (for [0 < n]); here the
    next raw value reduced modulo [n], so that every outcome in the range
    is the outcome for some tape. *)
Definition _randbelow (n : Z) : M Z :=
  fun g => (tape g (pos g) mod n, mkRng (tape g) (S (pos g))).

End Py.

Notation "x <- m ;; k" := (Py.bind m (fun x => k))
  (at level 61, m at next level, right associativity).

Module PyRandom.
Import Py.

(** [random.choice(seq)] is [seq[_randbelow(len(seq))]].  (On an empty
    sequence Python raises [IndexError]; both call sites pass a literal
    list of six strings.) *)
Definition choice (seq : list string) : M string :=
  k <- _randbelow (Z.of_nat (List.length seq)) ;;
  ret (nth (Z.to_nat k) seq EmptyString).

(** [random.randint(a, b)] is [a + _randbelow(b - a + 1)]. *)
Definition randint (a b : Z) : M Z :=
  k <- _randbelow (b - a + 1) ;;
  ret (a + k).

End PyRandom.

(* ===================================================================== *)
(** * The record generator *)
(* ===================================================================== *)

Module Generator.
Import Py PyRandom PyStr.

Definition departments : list string :=
  ["Engineering"; "Marketing"; "Sales"; "HR"; "Finance"; "Operations"].

Definition positions : list string :=
  ["Manager"; "Senior"; "Junior"; "Lead"; "Director"; "Analyst"].

(** The body of the loop for index [i]: three draws, then the f-string,
    whose last fragment draws the month and the day while it is evaluated
    (left to right). *)
Definition employee_data (i : Z) : M string :=
  dept <- choice departments ;;
  position <- choice positions ;;
  salary <- randint 45000 150000 ;;
  mm <- randint 1 12 ;;
  dd <- randint 1 28 ;;
  ret (("ID: " ++ fmt_0d 5 i ++ " | ")
       ++ ("Name: " ++ position ++ " " ++ dept ++ " Employee " ++ str_int i ++ " | ")
       ++ ("Email: employee" ++ str_int i ++ "@company.com | ")
       ++ ("Department: " ++ dept ++ " | ")
       ++ ("Salary: $" ++ fmt_comma salary ++ " | ")
       ++ ("Hire Date: 2020-" ++ fmt_0d 2 mm ++ "-" ++ fmt_0d 2 dd))%string.

(** [for i in idx: employees.append(employee_data)]. *)
Fixpoint for_employees (idx : list Z) (employees : list string)
  : M (list string) :=
  match idx with
  | [] => ret employees
  | i :: idx' =>
      e <- employee_data i ;;
      for_employees idx' (employees ++ [e])
  end.

(** The generator with the bounds of its [range] as arguments. *)
Definition generate_range (start stop : Z) : M (list string) :=
  for_employees (range start stop) [].

(** [EmployeeDataService._generate_sample_data]: the loop runs over
    [range(1, 10001)]. *)
Definition _generate_sample_data : M (list string) :=
  generate_range 1 10001.

End Generator.

(* ===================================================================== *)
(** * The service and its streaming handler *)
(* ===================================================================== *)

Module Server.
Import Py PyStr Generator.

(** The message [data_service_pb2.LargeDataLine]: one text field. *)
Record LargeDataLine : Type := mkLine { line : string }.

(** The request message; the handler never looks at it. *)
Inductive Request : Type := EmptyRequest.

(** [grpc.StatusCode]: the handler only ever sets [INTERNAL]. *)
Inductive StatusCode : Type := INTERNAL.

(** The part of the call context the handler writes: [None] is a field
    never set, which the framework reports as a successful completion. *)
Record Context : Type := mkContext {
  details : option string;
  code : option StatusCode
}.

Definition fresh_context : Context := mkContext None None.

Definition set_details (d : string) (c : Context) : Context :=
  mkContext (Some d) (code c).

Definition set_code (s : StatusCode) (c : Context) : Context :=
  mkContext (details c) (Some s).

(** Exception classes.  The first three derive from [Exception]; the last
    three derive from [BaseException] only. *)
Inductive ExcClass : Type :=
  | Exception | ZeroDivisionError | RpcError
  | GeneratorExit | KeyboardInterrupt | SystemExit.

(** An exception object: its class and its [str()]. *)
Record PyExc : Type := mkExc { cls : ExcClass; msg : string }.

(** [isinstance(e, Exception)], the test of [except Exception]. *)
Definition is_Exception (e : PyExc) : bool :=
  match cls e with
  | Exception | ZeroDivisionError | RpcError => true
  | GeneratorExit | KeyboardInterrupt | SystemExit => false
  end.

(** What the handler prints, without the decoration; times are readings of
    the clock or differences of two readings. *)
Inductive LogLine : Type :=
  | LogInitialized (n : Z)
  | LogStarting
  | LogStreaming (n : Z)
  | LogProgress (n : Z) (elapsed : Z)
  | LogCompleted (n : Z) (total_time : Z)
  | LogThroughput (n : Z) (total_time : Z)
  | LogError (text : string).

(** The console and the wall clock.  [time.time()] returns whatever the
    system clock shows; nothing in Python makes two readings differ or
    increase, so the readings are an arbitrary sequence [clock], of which
    [reads] have been taken.  A reading is kept as a number of clock ticks:
    the handler only subtracts two readings, prints the difference and
    divides by it, and the difference is zero exactly when the readings are
    equal. *)
Record World : Type := mkWorld {
  clock : nat -> Z;
  reads : nat;
  stdout : list LogLine
}.

Definition time_time (w : World) : Z * World :=
  (clock w (reads w), mkWorld (clock w) (S (reads w)) (stdout w)).

Definition print (l : LogLine) (w : World) : World :=
  mkWorld (clock w) (reads w) (stdout w ++ [l]).

(** The service object: its only attribute. *)
Record EmployeeDataService : Type := mkService { employees : list string }.

Definition len (l : list string) : Z := Z.of_nat (List.length l).

(** [EmployeeDataService.__init__]. *)
Definition __init__ (g : Rng) (w : World) : EmployeeDataService * Rng * World :=
  let (es, g') := _generate_sample_data g in
  (mkService es, g', print (LogInitialized (len es)) w).

(** What the consumer of the generator does with the handler suspended at a
    [yield]: it asks for the next frame ([next()]: the frame was written),
    or it raises an exception at the [yield] ([throw(e)]; [close()] is
    [throw(GeneratorExit)], used on cancellation). *)
Inductive Resume : Type :=
  | Next
  | Throw (e : PyExc).

(** The consumer of a call: its answer at the [yield] of index [i]. *)
Definition Consumer : Type := nat -> Resume.

(** How the generator ends: it returns ([StopIteration] for the consumer),
    or an exception leaves it. *)
Inductive Outcome : Type :=
  | Returned
  | Raised (e : PyExc).

(** One call as seen from outside: every frame yielded with the consumer's
    answer to it, the way the call ended, the context and the world. *)
Record Call : Type := mkCall {
  trace : list (LargeDataLine * Resume);
  outcome : Outcome;
  context : Context;
  world : World
}.

(** The progress indicator after the [yield] of index [i]. *)
Definition progress_indicator (start_time : Z) (i : nat) (w : World) : World :=
  if (Z.of_nat i + 1) mod 2500 =? 0 then
    let (now, w1) := time_time w in
    let elapsed := now - start_time in
    print (LogProgress (Z.of_nat i + 1) elapsed) w1
  else w.

(** [for i, employee_data in enumerate(self.employees)], entered at index
    [i] with [rest] still to come.  The result is the trace, the exception
    that left the loop if one did, and the world. *)
Fixpoint stream_loop (consumer : Consumer) (start_time : Z) (i : nat)
    (rest : list string) (w : World)
  : list (LargeDataLine * Resume) * option PyExc * World :=
  match rest with
  | [] => ([], None, w)
  | employee_data :: rest' =>
      let frame := mkLine employee_data in
      match consumer i with
      | Next =>
          let w1 := progress_indicator start_time i w in
          let '(tr, exc, w2) := stream_loop consumer start_time (S i) rest' w1 in
          ((frame, Next) :: tr, exc, w2)
      | Throw e => ([(frame, Throw e)], Some e, w)
      end
  end.

(** What a float division raises on a zero divisor (the text of the
    message is the one of CPython 3; it varies with the version). *)
Definition float_division_by_zero : PyExc :=
  mkExc ZeroDivisionError "float division by zero".

(** The two lines after the loop.  The throughput is a float division:
    Python raises [ZeroDivisionError] when [total_time] is [0.0], that is
    when the two readings are equal. *)
Definition report_completion (self : EmployeeDataService) (start_time : Z)
    (w : World) : option PyExc * World :=
  let (now, w1) := time_time w in
  let total_time := now - start_time in
  let w2 := print (LogCompleted (len (employees self)) total_time) w1 in
  if total_time =? 0
  then (Some float_division_by_zero, w2)
  else (None, print (LogThroughput (len (employees self)) total_time) w2).

(** The body of the [try]. *)
Definition try_body (self : EmployeeDataService) (consumer : Consumer)
    (start_time : Z) (w : World)
  : list (LargeDataLine * Resume) * option PyExc * World :=
  let '(tr, exc, w1) := stream_loop consumer start_time 0 (employees self) w in
  match exc with
  | Some e => (tr, Some e, w1)
  | None => let (exc', w2) := report_completion self start_time w1 in (tr, exc', w2)
  end.

(** The [except Exception as e] clause. *)
Definition except_Exception (e : PyExc) (ctx : Context) (w : World)
  : Context * World :=
  let w1 := print (LogError (msg e)) w in
  let ctx1 := set_details ("Streaming error: " ++ msg e) ctx in
  (set_code INTERNAL ctx1, w1).

(** [EmployeeDataService.StreamLargeData], run against a consumer. *)
Definition StreamLargeData (self : EmployeeDataService) (request : Request)
    (ctx : Context) (consumer : Consumer) (w : World) : Call :=
  let (start_time, w0) := time_time w in
  let w1 := print LogStarting w0 in
  let w2 := print (LogStreaming (len (employees self))) w1 in
  let '(tr, exc, w3) := try_body self consumer start_time w2 in
  match exc with
  | None => mkCall tr Returned ctx w3
  | Some e =>
      if is_Exception e
      then let (ctx', w4) := except_Exception e ctx w3 in mkCall tr Returned ctx' w4
      else mkCall tr (Raised e) ctx w3
  end.

(** The handler with the progress indicator taken out of the loop. *)
Fixpoint stream_loop_silent (consumer : Consumer) (i : nat)
    (rest : list string) (w : World)
  : list (LargeDataLine * Resume) * option PyExc * World :=
  match rest with
  | [] => ([], None, w)
  | employee_data :: rest' =>
      let frame := mkLine employee_data in
      match consumer i with
      | Next =>
          let '(tr, exc, w2) := stream_loop_silent consumer (S i) rest' w in
          ((frame, Next) :: tr, exc, w2)
      | Throw e => ([(frame, Throw e)], Some e, w)
      end
  end.

Definition StreamLargeData_silent (self : EmployeeDataService)
    (request : Request) (ctx : Context) (consumer : Consumer) (w : World)
  : Call :=
  let (start_time, w0) := time_time w in
  let w1 := print LogStarting w0 in
  let w2 := print (LogStreaming (len (employees self))) w1 in
  let '(tr, exc, w3) :=
    let '(tr, exc, w3) := stream_loop_silent consumer 0 (employees self) w2 in
    match exc with
    | Some e => (tr, Some e, w3)
    | None =>
        let (exc', w4) := report_completion self start_time w3 in (tr, exc', w4)
    end in
  match exc with
  | None => mkCall tr Returned ctx w3
  | Some e =>
      if is_Exception e
      then let (ctx', w4) := except_Exception e ctx w3 in mkCall tr Returned ctx' w4
      else mkCall tr (Raised e) ctx w3
  end.

(** The frames of a call, in the order they were yielded, and those the
    consumer accepted. *)
Definition frames (c : Call) : list LargeDataLine := map fst (trace c).

Definition accepted (r : Resume) : bool :=
  match r with Next => true | Throw _ => false end.

Definition delivered (c : Call) : list LargeDataLine :=
  map fst (filter (fun p => accepted (snd p)) (trace c)).

(** The consumer that takes every frame. *)
Definition takes_all : Consumer := fun _ => Next.

(** The frames as the consumer's framework would see them all. *)
Definition all_frames (self : EmployeeDataService) : list LargeDataLine :=
  map mkLine (employees self).

(** The record counts of the progress lines on the console. *)
Fixpoint progress_counts (out : list LogLine) : list Z :=
  match out with
  | [] => []
  | LogProgress n _ :: out' => n :: progress_counts out'
  | _ :: out' => progress_counts out'
  end.

(** The context the [except] clause leaves for an exception with text [m]. *)
Definition internal_error (m : string) (ctx : Context) : Context :=
  set_code INTERNAL (set_details ("Streaming error: " ++ m) ctx).

(** A call ends in one of two ways only: it returns with the context as it
    was, or it returns with the status [INTERNAL] and a message. *)
Definition completes_or_reports (ctx : Context) (c : Call) : Prop :=
  outcome c = Returned /\
  (context c = ctx \/
   exists m, context c = internal_error m ctx).

(** A console with nothing on it and a clock that shows the same time at
    every reading. *)
Definition stopped_clock : World := mkWorld (fun _ => 0) 0 [].

(** A console with nothing on it and a clock that shows one tick more at
    every reading. *)
Definition ticking_clock : World := mkWorld (fun k => Z.of_nat k) 0 [].

(** The clock reading a call starts from, the world its loop is entered
    in, and the loop of the call. *)
Definition start_of (w : World) : Z := clock w (reads w).

Definition entry_world (self : EmployeeDataService) (w : World) : World :=
  print (LogStreaming (len (employees self)))
        (print LogStarting (snd (time_time w))).

Definition loop_of (self : EmployeeDataService) (consumer : Consumer)
    (w : World) : list (LargeDataLine * Resume) * option PyExc * World :=
  stream_loop consumer (start_of w) 0 (employees self) (entry_world self w).

(** A random state and a consumer for the examples: the consumer takes
    every frame but the one of index [k], at which it raises [e]. *)
Definition zero_tape : Rng := mkRng (fun _ => 0) 0.

Definition mixed_tape : Rng := mkRng (fun k => Z.of_nat k * 7919 + 13) 0.

Definition fails_at (k : nat) (e : PyExc) : Consumer :=
  fun i => if (i =? k)%nat then Throw e else Next.

End Server.

(* ===================================================================== *)
(** * Reading a record back, and the draws behind a record *)
(* ===================================================================== *)

Module Reading.
Import Py PyRandom PyStr Generator.

(** A line cut at the field delimiter, every field cut at the
    sub-delimiter. *)
Definition fields (l : string) : list (list string) :=
  map (split ": ") (split " | " l).

(** The value of the first field made of exactly [label] and a value. *)
Fixpoint value_of (label : string) (fs : list (list string)) : option string :=
  match fs with
  | [] => None
  | [l; v] :: fs' => if String.eqb l label then Some v else value_of label fs'
  | _ :: fs' => value_of label fs'
  end.

Definition labels (fs : list (list string)) : list string :=
  map (fun f => hd EmptyString f) fs.

(** The numeral of a salary value: the currency sign and the thousands
    separators taken off. *)
Definition parse_salary (v : string) : option Z :=
  match v with
  | String "$" v' => parse_nat (remove_char "," v')
  | _ => None
  end.

Definition record_id (l : string) : option Z :=
  match value_of "ID" (fields l) with
  | Some v => parse_nat v
  | None => None
  end.

Definition record_department (l : string) : option string :=
  value_of "Department" (fields l).

Definition record_salary (l : string) : option Z :=
  match value_of "Salary" (fields l) with
  | Some v => parse_salary v
  | None => None
  end.

(** Identifier, department and salary read back from a line. *)
Definition parse_record (l : string) : option (Z * string * Z) :=
  match record_id l, record_department l, record_salary l with
  | Some i, Some d, Some s => Some (i, d, s)
  | _, _, _ => None
  end.

(** The hire date read back from a line: year, month and day. *)
Definition record_hire_date (l : string) : option (Z * Z * Z) :=
  match value_of "Hire Date" (fields l) with
  | Some v =>
      match split "-" v with
      | [y; m; d] =>
          match parse_nat y, parse_nat m, parse_nat d with
          | Some y', Some m', Some d' =>
              if (String.length m =? 2)%nat && (String.length d =? 2)%nat
              then Some (y', m', d') else None
          | _, _, _ => None
          end
      | _ => None
      end
  | None => None
  end.

(** The Gregorian calendar. *)
Definition leap_year (y : Z) : bool :=
  ((y mod 4 =? 0) && negb (y mod 100 =? 0)) || (y mod 400 =? 0).

Definition days_in_month (y m : Z) : Z :=
  if m =? 2 then (if leap_year y then 29 else 28)
  else if (m =? 4) || (m =? 6) || (m =? 9) || (m =? 11) then 30
  else 31.

Definition valid_date (ymd : Z * Z * Z) : bool :=
  let '(y, m, d) := ymd in
  (1 <=? m) && (m <=? 12) && (1 <=? d) && (d <=? days_in_month y m).

(** The five values drawn for one record, in the order of the draws. *)
Record Draws : Type := mkDraws {
  dept : string;
  position : string;
  salary : Z;
  month : Z;
  day : Z
}.

(** The draws of one run of the loop body. *)
Definition sample : M Draws :=
  dept <- choice departments ;;
  position <- choice positions ;;
  salary <- randint 45000 150000 ;;
  mm <- randint 1 12 ;;
  dd <- randint 1 28 ;;
  ret (mkDraws dept position salary mm dd).

(** The draws of [n] consecutive runs of the loop body. *)
Fixpoint draws_from (n : nat) (g : Rng) : list Draws :=
  match n with
  | O => []
  | S n' => let (d, g') := sample g in d :: draws_from n' g'
  end.

(** The text of the record of index [i] for given draws. *)
Definition render (i : Z) (d : Draws) : string :=
  (("ID: " ++ fmt_0d 5 i ++ " | ")
   ++ ("Name: " ++ position d ++ " " ++ dept d ++ " Employee " ++ str_int i ++ " | ")
   ++ ("Email: employee" ++ str_int i ++ "@company.com | ")
   ++ ("Department: " ++ dept d ++ " | ")
   ++ ("Salary: $" ++ fmt_comma (salary d) ++ " | ")
   ++ ("Hire Date: 2020-" ++ fmt_0d 2 (month d) ++ "-" ++ fmt_0d 2 (day d)))%string.

Definition render_pair (p : Z * Draws) : string := render (fst p) (snd p).

(** The six labels and values a record is written from. *)
Definition labelled (p : Z * Draws) : list (string * string) :=
  let (i, d) := p in
  [ ("ID", fmt_0d 5 i);
    ("Name", position d ++ " " ++ dept d ++ " Employee " ++ str_int i);
    ("Email", "employee" ++ str_int i ++ "@company.com");
    ("Department", dept d);
    ("Salary", "$" ++ fmt_comma (salary d));
    ("Hire Date", "2020-" ++ fmt_0d 2 (month d) ++ "-" ++ fmt_0d 2 (day d)) ]%string.

(** The six fields a record is expected to read back as. *)
Definition expected_fields (p : Z * Draws) : list (list string) :=
  map (fun lv => [fst lv; snd lv]) (labelled p).

(** The index and the draws of every record of a run of the generator over
    [range(start, stop)], in the order of generation. *)
Definition drawn (start stop : Z) (g : Rng) : list (Z * Draws) :=
  combine (range start stop) (draws_from (List.length (range start stop)) g).

(** What the draws of a record are known to satisfy. *)
Definition in_bounds (d : Draws) : Prop :=
  In (dept d) departments /\ In (position d) positions /\
  45000 <= salary d <= 150000 /\
  1 <= month d <= 12 /\ 1 <= day d <= 28.

(** [sep.join(fs)]. *)
Fixpoint join (sep : string) (fs : list string) : string :=
  match fs with
  | [] => EmptyString
  | [f] => f
  | f :: fs' => (f ++ sep ++ join sep fs')%string
  end.

End Reading.

(* ===================================================================== *)
(** * Further definitions: checks over ranges, chosen random states *)
(* ===================================================================== *)

Module Further.
Import Py PyRandom PyStr Generator Server Reading.

(** The position of [s] in [l] (the length of [l] when it is not there). *)
Fixpoint index_of (s : string) (l : list string) : nat :=
  match l with
  | [] => O
  | x :: l' => if String.eqb x s then O else S (index_of s l')
  end.

(** A random state whose next five raw values make the loop body draw [d]. *)
Definition state_for (d : Draws) : Rng :=
  mkRng (fun k =>
           match k with
           | 0%nat => Z.of_nat (index_of (dept d) departments)
           | 1%nat => Z.of_nat (index_of (position d) positions)
           | 2%nat => salary d - 45000
           | 3%nat => month d - 1
           | _ => day d - 1
           end) 0.

(** [test] on the [n] integers from [z] on. *)
Fixpoint holds_from (test : Z -> bool) (z : Z) (n : nat) : bool :=
  match n with
  | O => true
  | S n' => if test z then holds_from test (z + 1) n' else false
  end.

(** [test] on [blocks] consecutive runs of [size] integers from [z] on. *)
Fixpoint holds_blocks (test : Z -> bool) (z : Z) (size blocks : nat) : bool :=
  match blocks with
  | O => true
  | S blocks' =>
      if holds_from test z size
      then holds_blocks test (z + Z.of_nat size) size blocks'
      else false
  end.

(** The salary text is the thousands, a comma and the last three digits. *)
Definition salary_shape (s : Z) : bool :=
  String.eqb (fmt_comma s)
             (str_int (s / 1000) ++ "," ++ fmt_0d 3 (s mod 1000)).

(** The identifier text is five characters long. *)
Definition id_width (i : Z) : bool :=
  (String.length (fmt_0d 5 i) =? 5)%nat.

(** The lines that end a call on the console. *)
Definition closing (l : LogLine) : bool :=
  match l with
  | LogCompleted _ _ | LogThroughput _ _ | LogError _ => true
  | _ => false
  end.

Definition closing_lines (out : list LogLine) : list LogLine :=
  filter closing out.

(** The random state after [n] more raw values were consumed. *)
Definition advanced (n : nat) (g : Rng) : Rng := mkRng (tape g) (n + pos g).

End Further.

(* ===================================================================== *)
(** * The server process *)
(* ===================================================================== *)

Module Bootstrap.
Import Py PyStr Generator Server.

Inductive OptionValue : Type :=
  | IntValue (z : Z)
  | BoolValue (b : bool).

(** The calls [run_grpc_server] makes on the framework and on [time], in
    the order it makes them.  A [sleep] is recorded when it has returned. *)
Inductive ServerCall : Type :=
  | grpc_server (max_workers : Z) (options : list (string * OptionValue))
  | add_SimpleDataServiceServicer_to_server (servicer : EmployeeDataService)
  | add_insecure_port (address : string)
  | start
  | sleep (secs : Z)
  | stop (grace : Z).

(** What [run_grpc_server] prints, without the decoration (and without the
    text of the wall-clock time in [StartedAt]). *)
Inductive MainLine : Type :=
  | Rule (width : Z)
  | Title
  | ListeningOn (address : string)
  | ServiceName (name : string)
  | MethodName (name : string)
  | Dataset (count : string)
  | StartedAt
  | Ready
  | Watching
  | ShuttingDown
  | StoppedGracefully.

(** What [run_grpc_server] does, step by step: it builds the service
    object, it calls the framework or [time], it prints a line. *)
Inductive Event : Type :=
  | Constructs (servicer : EmployeeDataService)
  | Calls (c : ServerCall)
  | Prints (l : MainLine).

(** The process: the random state, the world of the service object (its
    [__init__] prints there, at the step [Constructs]), and everything
    [run_grpc_server] has done so far, in the order it did it. *)
Record Process : Type := mkProcess {
  rng : Rng;
  service_world : World;
  events : list Event
}.

(** The calls among the events, and the lines among them, in order. *)
Fixpoint calls_of (es : list Event) : list ServerCall :=
  match es with
  | [] => []
  | Calls c :: es' => c :: calls_of es'
  | _ :: es' => calls_of es'
  end.

Fixpoint lines_of (es : list Event) : list MainLine :=
  match es with
  | [] => []
  | Prints l :: es' => l :: lines_of es'
  | _ :: es' => lines_of es'
  end.

Definition calls (p : Process) : list ServerCall := calls_of (events p).

Definition out (p : Process) : list MainLine := lines_of (events p).

Definition record (e : Event) (p : Process) : Process :=
  mkProcess (rng p) (service_world p) (events p ++ [e]).

Definition call (c : ServerCall) (p : Process) : Process :=
  record (Calls c) p.

Definition say (l : MainLine) (p : Process) : Process :=
  record (Prints l) p.

(** The function is still in its loop, or it has returned. *)
Inductive Run : Type :=
  | Serving (p : Process)
  | Exited (p : Process).

(** The [except KeyboardInterrupt] clause. *)
Definition shut_down (p : Process) : Process :=
  say StoppedGracefully (call (stop 5) (say ShuttingDown p)).

(** [while True: time.sleep(1)], watched for [fuel] iterations, [k] sleeps
    having returned.  The main thread spends its time in [sleep]; the
    interrupt, if there is one, is raised in the sleep that starts after
    [interrupt] sleeps have returned. *)
Fixpoint keep_running (interrupt : option nat) (fuel : nat) (k : nat)
    (p : Process) : Run :=
  match fuel with
  | O => Serving p
  | S fuel' =>
      match interrupt with
      | Some n =>
          if (n =? k)%nat then Exited (shut_down p)
          else keep_running interrupt fuel' (S k) (call (sleep 1) p)
      | None => keep_running interrupt fuel' (S k) (call (sleep 1) p)
      end
  end.

(** The process when [server.start()] has returned. *)
Definition started (g : Rng) (w : World) : Process :=
  let p0 := mkProcess g w [] in
  let p1 :=
    call (grpc_server 10
            [("grpc.keepalive_time_ms", IntValue 30000);
             ("grpc.keepalive_timeout_ms", IntValue 5000);
             ("grpc.keepalive_permit_without_calls", BoolValue true)]) p0 in
  let '(servicer, g', w') := __init__ (rng p1) (service_world p1) in
  let p2 := mkProcess g' w' (events p1 ++ [Constructs servicer]) in
  let p3 := call (add_SimpleDataServiceServicer_to_server servicer) p2 in
  let listen_addr := "[::]:50051" in
  let p4 := call (add_insecure_port listen_addr) p3 in
  let p5 := say (Rule 70) p4 in
  let p6 := say Title p5 in
  let p7 := say (Rule 70) p6 in
  let p8 := say (ListeningOn "localhost:50051") p7 in
  let p9 := say (ServiceName "SimpleDataService") p8 in
  let p10 := say (MethodName "StreamLargeData (Server-side streaming)") p9 in
  let p11 := say (Dataset "10,000") p10 in
  let p12 := say (Rule 70) p11 in
  call start p12.

(** [run_grpc_server], watched for [fuel] iterations of its loop. *)
Definition run_grpc_server (interrupt : option nat) (fuel : nat)
    (g : Rng) (w : World) : Run :=
  let p := started g w in
  let p1 := say StartedAt p in
  let p2 := say Ready p1 in
  let p3 := say Watching p2 in
  keep_running interrupt fuel 0 p3.

(** Everything [run_grpc_server] has done when the server is started. *)
Definition startup (servicer : EmployeeDataService) : list Event :=
  [Calls (grpc_server 10
            [("grpc.keepalive_time_ms", IntValue 30000);
             ("grpc.keepalive_timeout_ms", IntValue 5000);
             ("grpc.keepalive_permit_without_calls", BoolValue true)]);
   Constructs servicer;
   Calls (add_SimpleDataServiceServicer_to_server servicer);
   Calls (add_insecure_port "[::]:50051");
   Prints (Rule 70); Prints Title; Prints (Rule 70);
   Prints (ListeningOn "localhost:50051");
   Prints (ServiceName "SimpleDataService");
   Prints (MethodName "StreamLargeData (Server-side streaming)");
   Prints (Dataset "10,000"); Prints (Rule 70);
   Calls start].

Definition is_stop (c : ServerCall) : bool :=
  match c with stop _ => true | _ => false end.

Definition is_servicer (c : ServerCall) : bool :=
  match c with add_SimpleDataServiceServicer_to_server _ => true | _ => false end.

End Bootstrap.

(* ===================================================================== *)
(** * Facts about strings *)
(* ===================================================================== *)

Module PyStrFacts.
Import PyStr.

Lemma append_assoc (a b c : string) :
  ((a ++ b) ++ c = a ++ (b ++ c))%string.
Proof. induction a as [|x a IH]; simpl; [reflexivity | now rewrite IH]. Qed.

Lemma occurs_append (c : ascii) (a b : string) :
  occurs c (a ++ b) = occurs c a || occurs c b.
Proof.
  induction a as [|x a IH]; simpl; [reflexivity|].
  now rewrite IH, orb_assoc.
Qed.

(** ** Decimal numerals *)

Lemma all_digits_string_of_uint (d : Decimal.uint) :
  all_digits (NilEmpty.string_of_uint d) = true.
Proof. induction d; simpl; auto. Qed.

Lemma all_digits_digits (n : N) : all_digits (digits n) = true.
Proof. apply all_digits_string_of_uint. Qed.

Lemma all_digits_append (a b : string) :
  all_digits (a ++ b) = all_digits a && all_digits b.
Proof.
  induction a as [|x a IH]; simpl; [reflexivity|].
  now rewrite IH, andb_assoc.
Qed.

Lemma all_digits_zeros (k : nat) : all_digits (zeros k) = true.
Proof. induction k; simpl; auto. Qed.

Lemma all_digits_zero_pad (w : nat) (s : string) :
  all_digits s = true -> all_digits (zero_pad w s) = true.
Proof.
  intros H. unfold zero_pad.
  now rewrite all_digits_append, all_digits_zeros, H.
Qed.

Lemma occurs_all_digits (c : ascii) (s : string) :
  is_digit c = false -> all_digits s = true -> occurs c s = false.
Proof.
  intros Hc. induction s as [|a s IH]; simpl; [reflexivity|].
  intros H. apply andb_true_iff in H as [Ha Hs].
  rewrite (IH Hs), orb_false_r.
  destruct (Ascii.eqb_spec a c) as [->|]; [congruence | reflexivity].
Qed.

Lemma digits_nonempty (n : N) : digits n <> EmptyString.
Proof.
  unfold digits. intros H.
  assert (E : N.to_uint n = Decimal.Nil)
    by (destruct (N.to_uint n); simpl in H; congruence).
  pose proof (DecimalN.Unsigned.of_to n) as R. rewrite E in R.
  simpl in R. subst n. discriminate E.
Qed.

Lemma uint_of_string_digits (n : N) :
  NilEmpty.uint_of_string (digits n) = Some (N.to_uint n).
Proof. apply NilEmpty.usu. Qed.

Lemma parse_nat_digits (n : N) : parse_nat (digits n) = Some (Z.of_N n).
Proof.
  unfold parse_nat. pose proof (digits_nonempty n) as Hne.
  destruct (digits n) eqn:E; [congruence|].
  rewrite <- E, uint_of_string_digits. simpl.
  now rewrite DecimalN.Unsigned.of_to.
Qed.

Lemma uint_of_string_zeros (k : nat) (s : string) (d : Decimal.uint) :
  NilEmpty.uint_of_string s = Some d ->
  exists d', NilEmpty.uint_of_string (zeros k ++ s) = Some d'
             /\ N.of_uint d' = N.of_uint d.
Proof.
  intros H. induction k as [|k [d' [E1 E2]]]; simpl.
  - now exists d.
  - exists (Decimal.D0 d'). rewrite E1. simpl. split; [reflexivity | exact E2].
Qed.

Lemma parse_nat_zero_pad (w : nat) (n : N) :
  parse_nat (zero_pad w (digits n)) = Some (Z.of_N n).
Proof.
  unfold parse_nat, zero_pad.
  destruct (uint_of_string_zeros (w - String.length (digits n)) _ _
              (uint_of_string_digits n)) as [d' [E1 E2]].
  pose proof (digits_nonempty n) as Hne.
  destruct (zeros (w - String.length (digits n)) ++ digits n)%string eqn:E.
  - destruct (zeros (w - String.length (digits n))); simpl in E;
      [congruence | discriminate].
  - rewrite E1. simpl. now rewrite E2, DecimalN.Unsigned.of_to.
Qed.

(** ** Thousands separators *)

Lemma occurs_cons (c a : ascii) (s : string) :
  occurs c (String a s) = Ascii.eqb a c || occurs c s.
Proof. reflexivity. Qed.

Lemma commas_cons (a : ascii) (s : string) :
  commas (String a s) =
  String a (if (0 <? String.length s)%nat && (String.length s mod 3 =? 0)%nat
            then String "," (commas s) else commas s).
Proof. reflexivity. Qed.

Lemma remove_char_cons (c a : ascii) (s : string) :
  remove_char c (String a s) =
  if Ascii.eqb a c then remove_char c s else String a (remove_char c s).
Proof. reflexivity. Qed.

Lemma occurs_commas (c : ascii) (s : string) :
  Ascii.eqb "," c = false -> occurs c (commas s) = occurs c s.
Proof.
  intros Hc. induction s as [|a s IH]; [reflexivity|].
  rewrite commas_cons, !occurs_cons.
  destruct ((0 <? String.length s)%nat && (String.length s mod 3 =? 0)%nat);
    rewrite ?occurs_cons, ?Hc, IH; reflexivity.
Qed.

Lemma remove_commas (s : string) :
  occurs "," s = false -> remove_char "," (commas s) = s.
Proof.
  induction s as [|a s IH]; [reflexivity|].
  rewrite occurs_cons, commas_cons, remove_char_cons.
  intros H. apply orb_false_iff in H as [Ha Hs].
  rewrite Ha.
  destruct ((0 <? String.length s)%nat && (String.length s mod 3 =? 0)%nat);
    rewrite ?remove_char_cons, ?Ascii.eqb_refl, IH; auto.
Qed.

(** ** Formatted integers *)

Lemma fmt_0d_nonneg (w : nat) (z : Z) :
  0 <= z -> fmt_0d w z = zero_pad w (digits (Z.to_N z)).
Proof.
  intros H. unfold fmt_0d.
  destruct (Z.ltb_spec z 0); [lia | reflexivity].
Qed.

Lemma str_int_nonneg (z : Z) : 0 <= z -> str_int z = digits (Z.to_N z).
Proof.
  intros H. unfold str_int.
  destruct (Z.ltb_spec z 0); [lia | reflexivity].
Qed.

Lemma fmt_comma_nonneg (z : Z) :
  0 <= z -> fmt_comma z = commas (digits (Z.to_N z)).
Proof.
  intros H. unfold fmt_comma.
  destruct (Z.ltb_spec z 0); [lia | reflexivity].
Qed.

Lemma plain_spec (c : ascii) :
  plain c = true ->
  is_digit c = false /\ Ascii.eqb "-" c = false /\ Ascii.eqb "," c = false.
Proof.
  unfold plain. intros H.
  apply andb_true_iff in H as [H H3]. apply andb_true_iff in H as [H1 H2].
  repeat split; now apply negb_true_iff.
Qed.

Lemma occurs_str_int (c : ascii) (z : Z) :
  plain c = true -> occurs c (str_int z) = false.
Proof.
  intros H. apply plain_spec in H as (Hd & Hm & _).
  unfold str_int. destruct (z <? 0);
    rewrite ?occurs_cons, ?Hm, occurs_all_digits; auto using all_digits_digits.
Qed.

Lemma occurs_fmt_0d (c : ascii) (w : nat) (z : Z) :
  plain c = true -> occurs c (fmt_0d w z) = false.
Proof.
  intros H. apply plain_spec in H as (Hd & Hm & _).
  unfold fmt_0d. destruct (z <? 0);
    rewrite ?occurs_cons, ?Hm, occurs_all_digits;
    auto using all_digits_zero_pad, all_digits_digits.
Qed.

Lemma occurs_fmt_comma (c : ascii) (z : Z) :
  plain c = true -> occurs c (fmt_comma z) = false.
Proof.
  intros H. apply plain_spec in H as (Hd & Hm & Hc).
  unfold fmt_comma. destruct (z <? 0);
    rewrite ?occurs_cons, ?Hm, occurs_commas, occurs_all_digits;
    auto using all_digits_digits.
Qed.

End PyStrFacts.

(* ===================================================================== *)
(** * Facts about [split] *)
(* ===================================================================== *)

Module SplitFacts.
Import PyStr PyStrFacts Reading.

Lemma prefix_cons (a b : ascii) (s1 s2 : string) :
  prefix (String a s1) (String b s2) =
  if Ascii.eqb a b then prefix s1 s2 else false.
Proof.
  simpl. destruct (ascii_dec a b) as [->|N].
  - now rewrite Ascii.eqb_refl.
  - destruct (Ascii.eqb_spec a b); [contradiction | reflexivity].
Qed.

Lemma prefix_append (s r : string) : prefix s (s ++ r) = true.
Proof.
  induction s as [|a s IH]; [now destruct r|].
  change (String a s ++ r)%string with (String a (s ++ r)).
  now rewrite prefix_cons, Ascii.eqb_refl.
Qed.

Lemma split_from_cons (sep : string) (c : ascii) (s : string) :
  split_from sep 0 (String c s) =
  if prefix sep (String c s)
  then EmptyString :: split_from sep (String.length sep - 1) s
  else match split_from sep 0 s with
       | f :: fs => String c f :: fs
       | [] => [String c EmptyString]
       end.
Proof. reflexivity. Qed.

Lemma split_from_skip (sep x r : string) :
  split_from sep (String.length x) (x ++ r) = split_from sep 0 r.
Proof. induction x as [|c x IH]; [reflexivity | exact IH]. Qed.

(** A separator at the front opens an empty piece. *)
Lemma split_at_sep (a : ascii) (rest r : string) :
  split (String a rest) (String a rest ++ r) =
  EmptyString :: split (String a rest) r.
Proof.
  unfold split.
  change (String a rest ++ r)%string with (String a (rest ++ r)).
  rewrite split_from_cons.
  change (String a (rest ++ r)) with (String a rest ++ r)%string.
  rewrite prefix_append.
  replace (String.length (String a rest) - 1)%nat with (String.length rest)
    by (simpl; lia).
  now rewrite split_from_skip.
Qed.

Section FirstCharacter.
(** Pieces that do not hold the first character of the separator. *)
Variables (a : ascii) (rest : string).
Let sep := String a rest.

Lemma no_prefix_first (c : ascii) (s : string) :
  Ascii.eqb c a = false -> prefix sep (String c s) = false.
Proof.
  intros H. unfold sep. now rewrite prefix_cons, Ascii.eqb_sym, H.
Qed.

Lemma split_first_absent (s r : string) :
  occurs a s = false ->
  split sep (s ++ sep ++ r) = s :: split sep r.
Proof.
  induction s as [|c s IH]; intros H.
  - apply split_at_sep.
  - rewrite occurs_cons in H. apply orb_false_iff in H as [Hc Hs].
    unfold split in *.
    change (String c s ++ sep ++ r)%string with (String c (s ++ sep ++ r)).
    rewrite split_from_cons, no_prefix_first by assumption.
    now rewrite (IH Hs).
Qed.

Lemma split_first_none (s : string) :
  occurs a s = false -> split sep s = [s].
Proof.
  induction s as [|c s IH]; intros H; [reflexivity|].
  rewrite occurs_cons in H. apply orb_false_iff in H as [Hc Hs].
  unfold split in *.
  rewrite split_from_cons, no_prefix_first by assumption.
  now rewrite (IH Hs).
Qed.
End FirstCharacter.

Section SecondCharacter.
(** Pieces that do not hold the second character of the separator. *)
Variables (a b : ascii) (rest : string).
Hypothesis a_b : Ascii.eqb b a = false.
Let sep := String a (String b rest).

Lemma no_prefix_second (c : ascii) (s r : string) :
  occurs b (String c s) = false ->
  prefix sep (String c (s ++ sep ++ r)) = false.
Proof.
  rewrite occurs_cons. intros H. apply orb_false_iff in H as [Hc Hs].
  unfold sep at 1. rewrite prefix_cons.
  destruct (Ascii.eqb a c); [|reflexivity].
  destruct s as [|c' s].
  - change ("" ++ sep ++ r)%string with (String a (String b rest ++ r)).
    now rewrite prefix_cons, a_b.
  - change (String c' s ++ sep ++ r)%string with (String c' (s ++ sep ++ r)).
    rewrite occurs_cons in Hs. apply orb_false_iff in Hs as [Hc' _].
    now rewrite prefix_cons, Ascii.eqb_sym, Hc'.
Qed.

Lemma no_prefix_second_end (c : ascii) (s : string) :
  occurs b (String c s) = false -> prefix sep (String c s) = false.
Proof.
  rewrite occurs_cons. intros H. apply orb_false_iff in H as [Hc Hs].
  unfold sep. rewrite prefix_cons.
  destruct (Ascii.eqb a c); [|reflexivity].
  destruct s as [|c' s]; [reflexivity|].
  rewrite occurs_cons in Hs. apply orb_false_iff in Hs as [Hc' _].
  now rewrite prefix_cons, Ascii.eqb_sym, Hc'.
Qed.

Lemma split_second_absent (s r : string) :
  occurs b s = false ->
  split sep (s ++ sep ++ r) = s :: split sep r.
Proof.
  induction s as [|c s IH]; intros H.
  - apply split_at_sep.
  - unfold split in *.
    change (String c s ++ sep ++ r)%string with (String c (s ++ sep ++ r)).
    rewrite split_from_cons, no_prefix_second by assumption.
    rewrite occurs_cons in H. apply orb_false_iff in H as [Hc Hs].
    now rewrite (IH Hs).
Qed.

Lemma split_second_none (s : string) :
  occurs b s = false -> split sep s = [s].
Proof.
  induction s as [|c s IH]; intros H; [reflexivity|].
  unfold split in *.
  rewrite split_from_cons, no_prefix_second_end by assumption.
  rewrite occurs_cons in H. apply orb_false_iff in H as [Hc Hs].
  now rewrite (IH Hs).
Qed.

(** Splitting undoes joining when no piece holds the second character. *)
Lemma split_join (fs : list string) :
  fs <> [] ->
  Forall (fun f => occurs b f = false) fs ->
  split sep (join sep fs) = fs.
Proof.
  induction fs as [|f fs IH]; [congruence|].
  intros _ H. inversion H as [|? ? Hf Hfs]; subst.
  destruct fs as [|f' fs].
  - now apply split_second_none.
  - change (join sep (f :: f' :: fs))
      with (f ++ sep ++ join sep (f' :: fs))%string.
    rewrite split_second_absent by assumption.
    now rewrite IH.
Qed.
End SecondCharacter.

(** A field [label: value] cut at the sub-delimiter. *)
Lemma split_label_value (label value : string) :
  occurs ":" label = false -> occurs ":" value = false ->
  split ": " (label ++ ": " ++ value) = [label; value].
Proof.
  intros Hl Hv.
  rewrite (split_first_absent ":" " " label value Hl).
  now rewrite (split_first_none ":" " " value Hv).
Qed.

(** A line of fields cut at both delimiters. *)
Lemma fields_join (lvs : list (string * string)) :
  lvs <> [] ->
  Forall (fun lv => occurs "|" (fst lv) = false /\ occurs "|" (snd lv) = false
                    /\ occurs ":" (fst lv) = false /\ occurs ":" (snd lv) = false)
         lvs ->
  fields (join " | " (map (fun lv => fst lv ++ ": " ++ snd lv)%string lvs)) =
  map (fun lv => [fst lv; snd lv]) lvs.
Proof.
  intros Hne H. unfold fields.
  rewrite (split_join " " "|" " " eq_refl).
  - rewrite map_map. apply map_ext_in. intros [l v] Hin.
    rewrite Forall_forall in H. destruct (H _ Hin) as (_ & _ & Hl & Hv).
    cbn [fst snd] in *. now apply split_label_value.
  - destruct lvs; [congruence | discriminate].
  - rewrite Forall_forall in *. intros f Hin.
    apply in_map_iff in Hin as [[l v] [<- Hin]].
    destruct (H _ Hin) as (Hl & Hv & _). cbn [fst snd] in *.
    now rewrite !occurs_append, Hl, Hv.
Qed.

End SplitFacts.

(* ===================================================================== *)
(** * Facts about the generator *)
(* ===================================================================== *)

Module GeneratorFacts.
Import Py PyRandom PyStr Generator Reading PyStrFacts SplitFacts.

(** ** [range] *)

Lemma length_range (start stop : Z) :
  List.length (range start stop) = Z.to_nat (stop - start).
Proof. unfold range. now rewrite length_map, length_seq. Qed.

Lemma in_range (start stop i : Z) :
  In i (range start stop) -> start <= i < stop.
Proof.
  unfold range. intros H. apply in_map_iff in H as [k [<- Hk]].
  apply in_seq in Hk. lia.
Qed.

Lemma range_from_1 (n : nat) :
  range 1 (Z.of_nat n + 1) = map Z.of_nat (seq 1 n).
Proof.
  unfold range. replace (Z.to_nat (Z.of_nat n + 1 - 1)) with n by lia.
  rewrite <- seq_shift, map_map. apply map_ext. intros k. lia.
Qed.

Lemma range_sorted (start stop : Z) :
  StronglySorted Z.lt (range start stop).
Proof.
  unfold range. generalize (Z.to_nat (stop - start)) as n.
  generalize 0%nat as k. intros k n. revert k.
  induction n as [|n IH]; intros k; simpl; constructor.
  - apply IH.
  - apply Forall_forall. intros x Hx.
    apply in_map_iff in Hx as [j [<- Hj]]. apply in_seq in Hj. lia.
Qed.

(** ** The draws *)

Lemma randbelow_bounds (n : Z) (g : Rng) :
  0 < n -> 0 <= fst (_randbelow n g) < n.
Proof. intros H. simpl. now apply Z.mod_pos_bound. Qed.

Lemma nth_in_literal (l : list string) (r : Z) :
  l <> [] ->
  In (nth (Z.to_nat (r mod Z.of_nat (List.length l))) l EmptyString) l.
Proof.
  intros Hne. apply nth_In.
  assert (0 < Z.of_nat (List.length l)) by (destruct l; [congruence | simpl; lia]).
  pose proof (Z.mod_pos_bound r _ H). lia.
Qed.

Lemma sample_in_bounds (g : Rng) : in_bounds (fst (sample g)).
Proof.
  unfold in_bounds, sample, choice, randint, bind, ret, _randbelow.
  cbn [fst snd dept position salary month day tape pos].
  repeat split;
    try (apply nth_in_literal; discriminate);
    match goal with
    | |- context [?x mod ?m] =>
        let H := fresh in
        assert (H : 0 < m) by reflexivity;
        pose proof (Z.mod_pos_bound x m H); lia
    end.
Qed.

Lemma draws_from_in_bounds (n : nat) (g : Rng) :
  Forall in_bounds (draws_from n g).
Proof.
  revert g. induction n as [|n IH]; intros g; cbn [draws_from]; [constructor|].
  pose proof (sample_in_bounds g) as H.
  destruct (sample g) as [d g']. constructor; [exact H | apply IH].
Qed.

Lemma length_draws_from (n : nat) (g : Rng) :
  List.length (draws_from n g) = n.
Proof.
  revert g. induction n as [|n IH]; intros g; cbn [draws_from]; [reflexivity|].
  destruct (sample g) as [d g']. cbn [List.length]. now rewrite IH.
Qed.

(** ** The generator as a map over indices and draws *)

Lemma employee_data_render (i : Z) (g : Rng) :
  employee_data i g = (render i (fst (sample g)), snd (sample g)).
Proof. reflexivity. Qed.

Lemma for_employees_spec (idx : list Z) (acc : list string) (g : Rng) :
  fst (for_employees idx acc g) =
  acc ++ map render_pair (combine idx (draws_from (List.length idx) g)).
Proof.
  revert acc g. induction idx as [|i idx IH]; intros acc g.
  - simpl. now rewrite app_nil_r.
  - cbn [for_employees]. unfold bind at 1.
    rewrite employee_data_render.
    cbn [List.length draws_from].
    destruct (sample g) as [d g']. cbn [fst snd].
    rewrite IH, <- app_assoc. reflexivity.
Qed.

Lemma generate_range_spec (start stop : Z) (g : Rng) :
  fst (generate_range start stop g) = map render_pair (drawn start stop g).
Proof. unfold generate_range. now rewrite for_employees_spec. Qed.

Lemma length_generate_range (start stop : Z) (g : Rng) :
  List.length (fst (generate_range start stop g)) = Z.to_nat (stop - start).
Proof.
  rewrite generate_range_spec, length_map.
  unfold drawn. rewrite length_combine, length_draws_from.
  rewrite Nat.min_id. apply length_range.
Qed.

Lemma map_fst_combine {A B} (l : list A) (l' : list B) :
  List.length l = List.length l' -> map fst (combine l l') = l.
Proof.
  revert l'. induction l as [|a l IH]; intros [|b l'] H; simpl in *;
    try discriminate; [reflexivity|].
  f_equal. apply IH. now injection H.
Qed.

Lemma map_fst_drawn (start stop : Z) (g : Rng) :
  map fst (drawn start stop g) = range start stop.
Proof.
  unfold drawn. apply map_fst_combine. now rewrite length_draws_from.
Qed.

(** Transfer of a fact about one record to the whole record set. *)
Lemma map_records {B} (f : string -> B) (h : Z * Draws -> B)
    (start stop : Z) (g : Rng) :
  (forall i d, start <= i < stop -> in_bounds d -> f (render i d) = h (i, d)) ->
  map f (fst (generate_range start stop g)) = map h (drawn start stop g).
Proof.
  intros H. rewrite generate_range_spec, map_map.
  apply map_ext_in. intros [i d] Hin. unfold render_pair. cbn [fst snd].
  unfold drawn in Hin.
  apply H.
  - apply in_range. eapply in_combine_l; eassumption.
  - pose proof (draws_from_in_bounds (List.length (range start stop)) g) as F.
    rewrite Forall_forall in F. apply F. eapply in_combine_r; eassumption.
Qed.

End GeneratorFacts.

(* ===================================================================== *)
(** * Facts about one record *)
(* ===================================================================== *)

Module RecordFacts.
Import Py PyRandom PyStr Generator Reading PyStrFacts SplitFacts GeneratorFacts.

Lemma departments_clean (s : string) :
  In s departments -> occurs "|" s = false /\ occurs ":" s = false.
Proof. simpl. intuition (subst; reflexivity). Qed.

Lemma positions_clean (s : string) :
  In s positions -> occurs "|" s = false /\ occurs ":" s = false.
Proof. simpl. intuition (subst; reflexivity). Qed.

(** The f-string is the six fields joined by the field delimiter. *)
Lemma render_join (i : Z) (d : Draws) :
  render i d =
  join " | " (map (fun lv => fst lv ++ ": " ++ snd lv)%string (labelled (i, d))).
Proof.
  unfold render, labelled. cbn [map join fst snd].
  rewrite !append_assoc. reflexivity.
Qed.

Ltac no_delimiter :=
  cbn [fst snd];
  rewrite ?occurs_append;
  rewrite ?occurs_fmt_0d, ?occurs_str_int, ?occurs_fmt_comma by reflexivity;
  repeat match goal with
         | H : occurs ?c ?s = false |- context [occurs ?c ?s] => rewrite H
         end;
  reflexivity.

Lemma render_fields (i : Z) (d : Draws) :
  In (dept d) departments -> In (position d) positions ->
  fields (render i d) = expected_fields (i, d).
Proof.
  intros Hd Hp.
  destruct (departments_clean _ Hd) as [Hd1 Hd2].
  destruct (positions_clean _ Hp) as [Hp1 Hp2].
  rewrite render_join. unfold expected_fields.
  apply fields_join; [discriminate|].
  unfold labelled.
  repeat (apply Forall_cons; [repeat split; no_delimiter|]).
  constructor.
Qed.

Lemma record_id_render (i : Z) (d : Draws) :
  0 <= i -> in_bounds d -> record_id (render i d) = Some i.
Proof.
  intros Hi (Hd & Hp & _). unfold record_id.
  rewrite render_fields by assumption.
  change (value_of "ID" (expected_fields (i, d))) with (Some (fmt_0d 5 i)).
  rewrite fmt_0d_nonneg, parse_nat_zero_pad by assumption.
  f_equal. lia.
Qed.

Lemma id_text_render (i : Z) (d : Draws) :
  0 <= i -> in_bounds d ->
  value_of "ID" (fields (render i d)) = Some (zero_pad 5 (digits (Z.to_N i))).
Proof.
  intros Hi (Hd & Hp & _).
  rewrite render_fields by assumption.
  change (value_of "ID" (expected_fields (i, d))) with (Some (fmt_0d 5 i)).
  now rewrite fmt_0d_nonneg.
Qed.

Lemma record_department_render (i : Z) (d : Draws) :
  in_bounds d -> record_department (render i d) = Some (dept d).
Proof.
  intros (Hd & Hp & _). unfold record_department.
  now rewrite render_fields.
Qed.

Lemma parse_salary_fmt (s : Z) :
  0 <= s -> parse_salary ("$" ++ fmt_comma s) = Some s.
Proof.
  intros Hs. rewrite fmt_comma_nonneg by assumption.
  change (parse_salary ("$" ++ commas (digits (Z.to_N s))))
    with (parse_nat (remove_char "," (commas (digits (Z.to_N s))))).
  rewrite remove_commas
    by (apply occurs_all_digits; [reflexivity | apply all_digits_digits]).
  rewrite parse_nat_digits. f_equal. lia.
Qed.

Lemma record_salary_render (i : Z) (d : Draws) :
  in_bounds d -> record_salary (render i d) = Some (salary d).
Proof.
  intros (Hd & Hp & Hs & _). unfold record_salary.
  rewrite render_fields by assumption.
  change (value_of "Salary" (expected_fields (i, d)))
    with (Some ("$" ++ fmt_comma (salary d))%string).
  apply parse_salary_fmt. lia.
Qed.

(** Round trip of one record. *)
Lemma parse_record_render (i : Z) (d : Draws) :
  0 <= i -> in_bounds d ->
  parse_record (render i d) = Some (i, dept d, salary d).
Proof.
  intros Hi Hb. unfold parse_record.
  now rewrite record_id_render, record_department_render, record_salary_render.
Qed.

(** ** The hire date *)

Lemma two_digits (z : Z) :
  0 <= z < 100 -> String.length (fmt_0d 2 z) = 2%nat.
Proof.
  intros H.
  assert (C : forallb (fun k => (String.length (fmt_0d 2 (Z.of_nat k)) =? 2)%nat)
                (seq 0 100) = true) by (vm_compute; reflexivity).
  rewrite forallb_forall in C.
  specialize (C (Z.to_nat z)).
  rewrite Z2Nat.id in C by lia.
  apply Nat.eqb_eq, C, in_seq. lia.
Qed.

Lemma parse_fmt_0d (w : nat) (z : Z) :
  0 <= z -> parse_nat (fmt_0d w z) = Some z.
Proof.
  intros H. rewrite fmt_0d_nonneg, parse_nat_zero_pad by assumption.
  f_equal. lia.
Qed.

Lemma split_date (a b c : string) :
  occurs "-" a = false -> occurs "-" b = false -> occurs "-" c = false ->
  split "-" (a ++ "-" ++ b ++ "-" ++ c) = [a; b; c].
Proof.
  intros Ha Hb Hc.
  rewrite (split_first_absent "-" "" a _ Ha).
  rewrite (split_first_absent "-" "" b _ Hb).
  now rewrite (split_first_none "-" "" c Hc).
Qed.

Lemma occurs_dash_fmt_0d (w : nat) (z : Z) :
  0 <= z -> occurs "-" (fmt_0d w z) = false.
Proof.
  intros H. rewrite fmt_0d_nonneg by assumption.
  apply occurs_all_digits; [reflexivity|].
  apply all_digits_zero_pad, all_digits_digits.
Qed.

Lemma record_hire_date_render (i : Z) (d : Draws) :
  in_bounds d ->
  record_hire_date (render i d) = Some (2020, month d, day d).
Proof.
  intros (Hd & Hp & _ & Hm & Hday). unfold record_hire_date.
  rewrite render_fields by assumption.
  change (value_of "Hire Date" (expected_fields (i, d)))
    with (Some ("2020" ++ "-" ++ fmt_0d 2 (month d) ++ "-" ++ fmt_0d 2 (day d))%string).
  cbv beta iota.
  rewrite split_date
    by (try reflexivity; apply occurs_dash_fmt_0d; lia).
  change (parse_nat "2020") with (Some 2020).
  rewrite !parse_fmt_0d by lia.
  now rewrite !two_digits by lia.
Qed.

Lemma valid_date_2020 (m d : Z) :
  1 <= m <= 12 -> 1 <= d <= 28 -> valid_date (2020, m, d) = true.
Proof.
  intros Hm Hd. unfold valid_date, days_in_month.
  change (leap_year 2020) with true.
  destruct (m =? 2);
    [| destruct ((m =? 4) || (m =? 6) || (m =? 9) || (m =? 11))];
    repeat (apply andb_true_iff; split); apply Z.leb_le; lia.
Qed.

(** The identifiers of a run of the generator, read back. *)
Lemma sequential_ids_of_range (start stop : Z) (g : Rng) :
  0 <= start ->
  map record_id (fst (generate_range start stop g)) =
    map Some (range start stop) /\
  List.length (fst (generate_range start stop g)) = Z.to_nat (stop - start).
Proof.
  intros H. split; [|apply length_generate_range].
  rewrite (map_records record_id (fun p => Some (fst p)))
    by (intros i d Hi Hb; cbn [fst]; apply record_id_render;
        [lia | assumption]).
  now rewrite <- (map_map fst Some), map_fst_drawn.
Qed.

End RecordFacts.

(* ===================================================================== *)
(** * Facts about the streaming handler *)
(* ===================================================================== *)

Module ServerFacts.
Import Py PyStr Generator Reading Server.

Lemma clock_progress_indicator (start_time : Z) (i : nat) (w : World) :
  clock (progress_indicator start_time i w) = clock w.
Proof.
  unfold progress_indicator.
  destruct ((Z.of_nat i + 1) mod 2500 =? 0); reflexivity.
Qed.

Lemma progress_counts_app (a b : list LogLine) :
  progress_counts (a ++ b) = progress_counts a ++ progress_counts b.
Proof.
  induction a as [|l a IH]; [reflexivity|].
  destruct l; simpl; now rewrite ?IH.
Qed.

Lemma progress_counts_progress_indicator (start_time : Z) (i : nat) (w : World) :
  progress_counts (stdout (progress_indicator start_time i w)) =
  progress_counts (stdout w)
  ++ (if (Z.of_nat i + 1) mod 2500 =? 0 then [Z.of_nat i + 1] else []).
Proof.
  unfold progress_indicator.
  destruct ((Z.of_nat i + 1) mod 2500 =? 0).
  - cbn [time_time print stdout]. now rewrite progress_counts_app.
  - now rewrite app_nil_r.
Qed.

(** One step of the loop. *)
Lemma stream_loop_cons (consumer : Consumer) (start_time : Z) (i : nat)
    (e : string) (rest : list string) (w : World) :
  stream_loop consumer start_time i (e :: rest) w =
  match consumer i with
  | Next =>
      let '(tr, exc, w2) :=
        stream_loop consumer start_time (S i) rest
          (progress_indicator start_time i w) in
      ((mkLine e, Next) :: tr, exc, w2)
  | Throw x => ([(mkLine e, Throw x)], Some x, w)
  end.
Proof. reflexivity. Qed.

(** The loop leaves the clock alone. *)
Lemma clock_stream_loop (consumer : Consumer) (start_time : Z)
    (rest : list string) (i : nat) (w : World) :
  clock (snd (stream_loop consumer start_time i rest w)) = clock w.
Proof.
  revert i w. induction rest as [|e rest IH]; intros i w; [reflexivity|].
  rewrite stream_loop_cons. destruct (consumer i); [|reflexivity].
  specialize (IH (S i) (progress_indicator start_time i w)).
  destruct (stream_loop consumer start_time (S i) rest _) as [[tr exc] w2].
  cbn [snd] in *. now rewrite IH, clock_progress_indicator.
Qed.

(** The loop only adds readings. *)
Lemma reads_stream_loop (consumer : Consumer) (start_time : Z)
    (rest : list string) (i : nat) (w : World) :
  (reads w <= reads (snd (stream_loop consumer start_time i rest w)))%nat.
Proof.
  revert i w. induction rest as [|e rest IH]; intros i w; [simpl; lia|].
  rewrite stream_loop_cons. destruct (consumer i); [|simpl; lia].
  specialize (IH (S i) (progress_indicator start_time i w)).
  destruct (stream_loop consumer start_time (S i) rest _) as [[tr exc] w2].
  cbn [snd] in *.
  assert (reads w <= reads (progress_indicator start_time i w))%nat; [|lia].
  unfold progress_indicator.
  destruct ((Z.of_nat i + 1) mod 2500 =? 0); simpl; lia.
Qed.

(** The loop with and without the progress indicator: same trace, same
    exit, whatever the two worlds are. *)
Lemma stream_loop_silent_same (consumer : Consumer) (start_time : Z)
    (rest : list string) (i : nat) (w w' : World) :
  fst (stream_loop consumer start_time i rest w) =
  fst (stream_loop_silent consumer i rest w').
Proof.
  revert i w w'. induction rest as [|e rest IH]; intros i w w'; [reflexivity|].
  rewrite stream_loop_cons. cbn [stream_loop_silent].
  destruct (consumer i); [|reflexivity].
  specialize (IH (S i) (progress_indicator start_time i w) w').
  destruct (stream_loop consumer start_time (S i) rest _) as [[tr exc] w2].
  destruct (stream_loop_silent consumer (S i) rest w') as [[tr' exc'] w2'].
  cbn [fst] in *. now inversion IH.
Qed.

(** The loop against a consumer that takes every frame. *)
Lemma stream_loop_takes_all (start_time : Z) (rest : list string)
    (i : nat) (w : World) :
  fst (stream_loop takes_all start_time i rest w) =
  (map (fun e => (mkLine e, Next)) rest, None).
Proof.
  revert i w. induction rest as [|e rest IH]; intros i w; [reflexivity|].
  rewrite stream_loop_cons. cbn [takes_all].
  specialize (IH (S i) (progress_indicator start_time i w)).
  destruct (stream_loop takes_all start_time (S i) rest _) as [[tr exc] w2].
  cbn [fst map] in *. now inversion IH.
Qed.

Lemma progress_counts_stream_loop (start_time : Z) (rest : list string)
    (i : nat) (w : World) :
  progress_counts (stdout (snd (stream_loop takes_all start_time i rest w))) =
  progress_counts (stdout w)
  ++ filter (fun n => n mod 2500 =? 0)
       (map (fun k => Z.of_nat k + 1) (seq i (List.length rest))).
Proof.
  revert i w. induction rest as [|e rest IH]; intros i w.
  - simpl. now rewrite app_nil_r.
  - rewrite stream_loop_cons. cbn [takes_all].
    specialize (IH (S i) (progress_indicator start_time i w)).
    destruct (stream_loop takes_all start_time (S i) rest _) as [[tr exc] w2].
    cbn [snd] in *. rewrite IH, progress_counts_progress_indicator.
    cbn [List.length seq map filter].
    destruct ((Z.of_nat i + 1) mod 2500 =? 0);
      now rewrite <- app_assoc.
Qed.

(** The frames yielded are always an initial segment of the record set. *)
Lemma stream_loop_prefix (consumer : Consumer) (start_time : Z)
    (rest : list string) (i : nat) (w : World) :
  exists k : nat,
    map fst (fst (fst (stream_loop consumer start_time i rest w))) =
    firstn k (map mkLine rest).
Proof.
  revert i w. induction rest as [|e rest IH]; intros i w.
  - now exists 0%nat.
  - rewrite stream_loop_cons. destruct (consumer i).
    + destruct (IH (S i) (progress_indicator start_time i w)) as [k Hk].
      destruct (stream_loop consumer start_time (S i) rest _) as [[tr exc] w2].
      exists (S k). cbn [fst map firstn] in *. now rewrite Hk.
    + exists 1%nat. reflexivity.
Qed.

(** An exception leaves the loop only if the consumer raised it. *)
Lemma stream_loop_exception (consumer : Consumer) (start_time : Z)
    (rest : list string) (i : nat) (w : World) (e : PyExc) :
  snd (fst (stream_loop consumer start_time i rest w)) = Some e ->
  exists j : nat, consumer j = Throw e.
Proof.
  revert i w. induction rest as [|x rest IH]; intros i w; [discriminate|].
  rewrite stream_loop_cons. destruct (consumer i) eqn:E.
  - specialize (IH (S i) (progress_indicator start_time i w)).
    destruct (stream_loop consumer start_time (S i) rest _) as [[tr exc] w2].
    exact IH.
  - cbn [fst snd]. intros [= ->]. now exists i.
Qed.

(** The loop up to the first frame the consumer refuses. *)
Lemma stream_loop_throw (consumer : Consumer) (start_time : Z) (e : PyExc)
    (k : nat) (rest : list string) (i : nat) (w : World) :
  (k < List.length rest)%nat ->
  (forall j, (j < k)%nat -> consumer (i + j)%nat = Next) ->
  consumer (i + k)%nat = Throw e ->
  fst (stream_loop consumer start_time i rest w) =
  (map (fun x => (mkLine x, Next)) (firstn k rest)
   ++ [(mkLine (nth k rest EmptyString), Throw e)], Some e).
Proof.
  revert rest i w. induction k as [|k IH]; intros rest i w Hk Hnext Hthrow.
  - destruct rest as [|x rest]; [simpl in Hk; lia|].
    rewrite stream_loop_cons. rewrite Nat.add_0_r in Hthrow.
    now rewrite Hthrow.
  - destruct rest as [|x rest]; [simpl in Hk; lia|].
    rewrite stream_loop_cons.
    rewrite <- (Nat.add_0_r i) at 1. rewrite (Hnext 0%nat) by lia.
    specialize (IH rest (S i) (progress_indicator start_time i w)).
    destruct (stream_loop consumer start_time (S i) rest _) as [[tr exc] w2].
    cbn [fst] in *.
    assert (E : (tr, exc) =
                (map (fun x => (mkLine x, Next)) (firstn k rest)
                 ++ [(mkLine (nth k rest EmptyString), Throw e)], Some e)).
    { apply IH.
      - simpl in Hk. lia.
      - intros j Hj. replace (S i + j)%nat with (i + S j)%nat by lia.
        apply Hnext. lia.
      - now replace (S i + k)%nat with (i + S k)%nat by lia. }
    inversion E. reflexivity.
Qed.

(** ** A whole call *)

Ltac run_call self consumer w :=
  unfold StreamLargeData, try_body;
  cbn [time_time];
  change (stream_loop consumer (clock w (reads w)) 0 (employees self) _)
    with (loop_of self consumer w).

Lemma trace_call (self : EmployeeDataService) (rq : Request) (ctx : Context)
    (consumer : Consumer) (w : World) :
  trace (StreamLargeData self rq ctx consumer w) =
  fst (fst (loop_of self consumer w)).
Proof.
  run_call self consumer w.
  destruct (loop_of self consumer w) as [[tr [e|]] w3].
  - destruct (is_Exception e); reflexivity.
  - destruct (report_completion self _ w3) as [[e|] w4];
      [destruct (is_Exception e)|]; reflexivity.
Qed.

(** The call when an exception leaves the loop. *)
Lemma call_interrupted (self : EmployeeDataService) (rq : Request)
    (ctx : Context) (consumer : Consumer) (w : World) (e : PyExc) :
  snd (fst (loop_of self consumer w)) = Some e ->
  let c := StreamLargeData self rq ctx consumer w in
  if is_Exception e
  then outcome c = Returned /\ context c = internal_error (msg e) ctx
  else outcome c = Raised e /\ context c = ctx.
Proof.
  run_call self consumer w.
  destruct (loop_of self consumer w) as [[tr exc] w3].
  cbn [fst snd]. intros ->.
  destruct (is_Exception e); cbn; auto.
Qed.

(** The call when the loop runs to its end: the status depends on the two
    clock readings the throughput is computed from. *)
Lemma call_exhausted (self : EmployeeDataService) (rq : Request)
    (ctx : Context) (consumer : Consumer) (w : World) :
  snd (fst (loop_of self consumer w)) = None ->
  let c := StreamLargeData self rq ctx consumer w in
  let finish := clock w (reads (snd (loop_of self consumer w))) in
  outcome c = Returned /\
  context c = if finish - start_of w =? 0
              then internal_error (msg float_division_by_zero) ctx
              else ctx.
Proof.
  intros H. pose proof (clock_stream_loop consumer (start_of w)
                          (employees self) 0 (entry_world self w)) as K.
  fold (loop_of self consumer w) in K. revert H K.
  run_call self consumer w.
  destruct (loop_of self consumer w) as [[tr exc] w3].
  cbn [fst snd]. intros -> K.
  unfold report_completion, time_time. rewrite K.
  change (clock (entry_world self w)) with (clock w).
  unfold start_of.
  destruct (clock w (reads w3) - clock w (reads w) =? 0); cbn; auto.
Qed.

Lemma frames_takes_all (self : EmployeeDataService) (rq : Request)
    (ctx : Context) (w : World) :
  let c := StreamLargeData self rq ctx takes_all w in
  frames c = all_frames self /\ delivered c = all_frames self.
Proof.
  cbv zeta. unfold frames, delivered. rewrite trace_call.
  unfold loop_of. rewrite stream_loop_takes_all. cbn [fst].
  unfold all_frames. split.
  - rewrite map_map. reflexivity.
  - induction (employees self) as [|e es IH]; [reflexivity|].
    cbn [map filter snd accepted fst]. now rewrite IH.
Qed.

(** The service as constructed. *)
Lemma employees_init (g : Rng) (w : World) :
  employees (fst (fst (__init__ g w))) = fst (_generate_sample_data g).
Proof.
  unfold __init__. destruct (_generate_sample_data g) as [es g']. reflexivity.
Qed.

Lemma length_employees_init (g : Rng) (w : World) :
  List.length (employees (fst (fst (__init__ g w)))) = Z.to_nat 10000.
Proof.
  rewrite employees_init. unfold _generate_sample_data.
  now rewrite GeneratorFacts.length_generate_range.
Qed.

Lemma clock_init (g : Rng) (w : World) :
  clock (snd (__init__ g w)) = clock w.
Proof.
  unfold __init__. destruct (_generate_sample_data g) as [es g']. reflexivity.
Qed.

(** The progress lines of a call whose consumer takes every frame. *)
Lemma traces_agree (self : EmployeeDataService) (rq : Request) (ctx : Context)
    (consumer : Consumer) (w w' : World) :
  trace (StreamLargeData self rq ctx consumer w) =
  trace (StreamLargeData_silent self rq ctx consumer w').
Proof.
  rewrite trace_call. unfold loop_of, StreamLargeData_silent.
  cbn [time_time].
  pose proof (stream_loop_silent_same consumer (start_of w) (employees self)
                0 (entry_world self w)
                (print (LogStreaming (len (employees self)))
                   (print LogStarting
                      (mkWorld (clock w') (S (reads w')) (stdout w'))))) as S.
  destruct (stream_loop consumer _ _ _ _) as [[tr exc] w3].
  destruct (stream_loop_silent consumer _ _ _) as [[tr' exc'] w3'].
  cbn [fst] in S. inversion S; subst tr' exc'. cbn [fst].
  destruct exc as [e|].
  - destruct (is_Exception e); reflexivity.
  - destruct (report_completion self _ w3') as [[e|] w4];
      [destruct (is_Exception e)|]; reflexivity.
Qed.

Lemma progress_counts_entry (self : EmployeeDataService) (w : World) :
  progress_counts (stdout (entry_world self w)) = progress_counts (stdout w).
Proof.
  unfold entry_world, time_time. cbn [print stdout snd].
  rewrite !progress_counts_app. cbn [progress_counts].
  now rewrite !app_nil_r.
Qed.

Lemma progress_counts_call (self : EmployeeDataService) (rq : Request)
    (ctx : Context) (w : World) :
  progress_counts (stdout (world (StreamLargeData self rq ctx takes_all w))) =
  progress_counts (stdout w)
  ++ filter (fun n => n mod 2500 =? 0) (range 1 (len (employees self) + 1)).
Proof.
  pose proof (progress_counts_stream_loop (start_of w) (employees self) 0
                (entry_world self w)) as P.
  pose proof (stream_loop_takes_all (start_of w) (employees self) 0
                (entry_world self w)) as A.
  unfold StreamLargeData, try_body. cbn [time_time].
  change (stream_loop takes_all (clock w (reads w)) 0 (employees self) _)
    with (stream_loop takes_all (start_of w) 0 (employees self)
            (entry_world self w)).
  destruct (stream_loop takes_all _ _ _ _) as [[tr exc] w3].
  cbn [fst snd] in *. inversion A; subst tr exc.
  assert (R : filter (fun n => n mod 2500 =? 0)
                (range 1 (len (employees self) + 1)) =
              filter (fun n => n mod 2500 =? 0)
                (map (fun k => Z.of_nat k + 1)
                   (seq 0 (List.length (employees self))))).
  { unfold range, len. f_equal.
    replace (Z.to_nat (Z.of_nat (List.length (employees self)) + 1 - 1))
      with (List.length (employees self)) by lia.
    apply map_ext. intros k. lia. }
  rewrite progress_counts_entry in P. rewrite R, <- P.
  unfold report_completion, time_time.
  destruct (clock w3 (reads w3) - clock w (reads w) =? 0);
    cbn [is_Exception cls float_division_by_zero except_Exception world
         print stdout];
    rewrite ?progress_counts_app; cbn [progress_counts];
    now rewrite ?app_nil_r.
Qed.

Lemma progress_counts_call_silent (self : EmployeeDataService) (rq : Request)
    (ctx : Context) (w : World) :
  progress_counts
    (stdout (world (StreamLargeData_silent self rq ctx takes_all w))) =
  progress_counts (stdout w).
Proof.
  unfold StreamLargeData_silent. cbn [time_time].
  assert (Q : forall rest i w0,
             stream_loop_silent takes_all i rest w0 =
             (map (fun e => (mkLine e, Next)) rest, None, w0)).
  { induction rest as [|e rest IH]; intros i w0; [reflexivity|].
    cbn [stream_loop_silent takes_all map]. now rewrite IH. }
  rewrite Q. unfold report_completion, time_time.
  cbn [clock reads print stdout].
  destruct (clock w (S (reads w)) - clock w (reads w) =? 0);
    cbn [is_Exception cls float_division_by_zero except_Exception world
         print stdout];
    rewrite ?progress_counts_app; cbn [progress_counts];
    now rewrite ?app_nil_r.
Qed.

Lemma progress_marks_10000 :
  filter (fun n => n mod 2500 =? 0) (range 1 (10000 + 1)) =
  [2500; 5000; 7500; 10000].
Proof. vm_compute. reflexivity. Qed.

Lemma stdout_init (g : Rng) (w : World) :
  stdout (snd (__init__ g w)) =
  stdout w ++ [LogInitialized (len (employees (fst (fst (__init__ g w)))))].
Proof.
  unfold __init__. destruct (_generate_sample_data g) as [es g']. reflexivity.
Qed.

End ServerFacts.

(* ===================================================================== *)
(** * The model on concrete inputs *)
(* ===================================================================== *)

Module Examples.
Import Py PyStr Generator Reading Server.

Example fmt_0d_pads : fmt_0d 5 42 = "00042" /\ fmt_0d 5 123456 = "123456".
Proof. split; reflexivity. Qed.

Example fmt_comma_groups :
  fmt_comma 45000 = "45,000" /\ fmt_comma 1234567 = "1,234,567" /\
  fmt_comma 999 = "999".
Proof. repeat split; reflexivity. Qed.

Example split_keeps_empty_pieces :
  split " | " "a | b |  | c" = ["a"; "b"; ""; "c"].
Proof. reflexivity. Qed.

Example first_records :
  fst (generate_range 1 3 mixed_tape) =
  [ "ID: 00001 | Name: Manager Marketing Employee 1 | Email: employee1@company.com | Department: Marketing | Salary: $60,851 | Hire Date: 2020-11-22";
    "ID: 00002 | Name: Senior Sales Employee 2 | Email: employee2@company.com | Department: Sales | Salary: $100,446 | Hire Date: 2020-06-25" ].
Proof. vm_compute. reflexivity. Qed.

Example first_records_read_back :
  map parse_record (fst (generate_range 1 3 mixed_tape)) =
  [Some (1, "Marketing", 60851); Some (2, "Sales", 100446)] /\
  map record_hire_date (fst (generate_range 1 3 mixed_tape)) =
  [Some (2020, 11, 22); Some (2020, 6, 25)].
Proof. split; vm_compute; reflexivity. Qed.

Example three_records_streamed :
  let c := StreamLargeData (mkService ["r1"; "r2"; "r3"]) EmptyRequest
             fresh_context takes_all ticking_clock in
  frames c = [mkLine "r1"; mkLine "r2"; mkLine "r3"] /\
  outcome c = Returned /\ context c = fresh_context /\
  stdout (world c) =
  [LogStarting; LogStreaming 3; LogCompleted 3 1; LogThroughput 3 1].
Proof. repeat split; reflexivity. Qed.

Example second_write_fails :
  let c := StreamLargeData (mkService ["r1"; "r2"; "r3"]) EmptyRequest
             fresh_context (fails_at 1 (mkExc RpcError "broken pipe"))
             ticking_clock in
  frames c = [mkLine "r1"; mkLine "r2"] /\
  delivered c = [mkLine "r1"] /\
  outcome c = Returned /\
  context c = mkContext (Some "Streaming error: broken pipe") (Some INTERNAL).
Proof. repeat split; reflexivity. Qed.

Example closed_at_second_frame :
  let c := StreamLargeData (mkService ["r1"; "r2"; "r3"]) EmptyRequest
             fresh_context (fails_at 1 (mkExc GeneratorExit ""))
             ticking_clock in
  frames c = [mkLine "r1"; mkLine "r2"] /\
  outcome c = Raised (mkExc GeneratorExit "") /\
  context c = fresh_context.
Proof. repeat split; reflexivity. Qed.

End Examples.

(* ===================================================================== *)
(** * The claims about the generator *)
(* ===================================================================== *)

Import Py PyStr Generator Reading Server.
Import PyStrFacts SplitFacts GeneratorFacts RecordFacts ServerFacts.

(** C1.  Round trip: every record of the generated set, cut at [" | "] and
    every field cut at [": "], gives back its identifier, the department
    drawn for it and the salary drawn for it (the integer before the
    currency sign and the thousands separators were put in).  [drawn] lists,
    in order, the index and the values drawn in the loop body the record
    was written in. *)
Theorem records_round_trip (g : Rng) :
  fst (_generate_sample_data g) = map render_pair (drawn 1 10001 g) /\
  map parse_record (fst (_generate_sample_data g)) =
  map (fun p => Some (fst p, dept (snd p), salary (snd p))) (drawn 1 10001 g).
Proof.
  split.
  - apply generate_range_spec.
  - apply map_records. intros i d Hi Hb. cbn [fst snd].
    apply parse_record_render; [lia | assumption].
Qed.

(** C3.  A run of the generator over [range(1, n + 1)] gives exactly [n]
    records; their identifiers, read back from the text, are 1, 2, ..., [n]
    in this order, a strictly increasing sequence; and the identifier is
    shown as its decimal numeral padded with zeros to five characters.  The
    generator of the service is the run for [n] = 10000. *)
Theorem sequential_identifiers (n : nat) (g : Rng) :
  let recs := fst (generate_range 1 (Z.of_nat n + 1) g) in
  List.length recs = n /\
  map record_id recs = map (fun k => Some (Z.of_nat k)) (seq 1 n) /\
  map (fun l => value_of "ID" (fields l)) recs =
    map (fun k => Some (zero_pad 5 (digits (N.of_nat k)))) (seq 1 n) /\
  StronglySorted Z.lt (map Z.of_nat (seq 1 n)) /\
  _generate_sample_data = generate_range 1 (Z.of_nat (Z.to_nat 10000) + 1).
Proof.
  cbv zeta. split; [|split; [|split; [|split]]].
  - rewrite length_generate_range. lia.
  - rewrite (map_records record_id (fun p => Some (fst p)))
      by (intros i d Hi Hb; cbn [fst]; apply record_id_render;
          [lia | assumption]).
    rewrite <- (map_map fst Some), map_fst_drawn.
    rewrite range_from_1, map_map. reflexivity.
  - rewrite (map_records (fun l => value_of "ID" (fields l))
               (fun p => Some (zero_pad 5 (digits (Z.to_N (fst p))))))
      by (intros i d Hi Hb; cbn [fst]; apply id_text_render;
          [lia | assumption]).
    rewrite <- (map_map fst (fun i => Some (zero_pad 5 (digits (Z.to_N i))))).
    rewrite map_fst_drawn.
    rewrite range_from_1, map_map. apply map_ext. intros k.
    do 3 f_equal. lia.
  - rewrite <- range_from_1. apply range_sorted.
  - reflexivity.
Qed.

(** C4.  For every record of the generated set the salary drawn is an
    integer of [45000, 150000], and the department and the position drawn
    are members of their lists, which hold six distinct names each. *)
Theorem draws_within_bounds (g : Rng) :
  fst (_generate_sample_data g) = map render_pair (drawn 1 10001 g) /\
  Forall (fun p => 45000 <= salary (snd p) <= 150000 /\
                   In (dept (snd p)) departments /\
                   In (position (snd p)) positions)
         (drawn 1 10001 g) /\
  List.length departments = 6%nat /\ NoDup departments /\
  List.length positions = 6%nat /\ NoDup positions.
Proof.
  split; [apply generate_range_spec|]. split.
  - apply Forall_forall. intros [i d] Hin. unfold drawn in Hin.
    pose proof (draws_from_in_bounds (List.length (range 1 10001)) g) as F.
    rewrite Forall_forall in F.
    destruct (F d (in_combine_r _ _ _ _ Hin)) as (Hd & Hp & Hs & _).
    cbn [snd]. auto.
  - repeat split; try reflexivity;
      repeat (constructor; [simpl; intuition discriminate|]); constructor.
Qed.

(** C5.  For every record of the generated set the hire date field reads
    back as year 2020, a two-character month and a two-character day, which
    are the month and the day drawn; the month is in [1, 12] and the day in
    [1, 28]; and every such date is a date of the calendar. *)
Theorem hire_dates_valid (g : Rng) :
  let recs := fst (_generate_sample_data g) in
  map record_hire_date recs =
    map (fun p => Some (2020, month (snd p), day (snd p))) (drawn 1 10001 g) /\
  Forall (fun p => 1 <= month (snd p) <= 12 /\ 1 <= day (snd p) <= 28)
         (drawn 1 10001 g) /\
  forallb (fun l => match record_hire_date l with
                    | Some ymd => valid_date ymd
                    | None => false
                    end) recs = true.
Proof.
  cbv zeta.
  assert (B : Forall (fun p => in_bounds (snd p)) (drawn 1 10001 g)).
  { apply Forall_forall. intros [i d] Hin. unfold drawn in Hin.
    pose proof (draws_from_in_bounds (List.length (range 1 10001)) g) as F.
    rewrite Forall_forall in F. exact (F d (in_combine_r _ _ _ _ Hin)). }
  split; [|split].
  - apply map_records. intros i d _ Hb. now apply record_hire_date_render.
  - eapply Forall_impl; [|exact B]. intros p (_ & _ & _ & Hm & Hd). auto.
  - unfold _generate_sample_data. rewrite generate_range_spec.
    apply forallb_forall. intros l Hl.
    apply in_map_iff in Hl as [[i d] [<- Hin]].
    rewrite Forall_forall in B. specialize (B _ Hin). cbn [snd] in B.
    unfold render_pair. cbn [fst snd].
    rewrite record_hire_date_render by assumption.
    destruct B as (_ & _ & _ & Hm & Hd). now apply valid_date_2020.
Qed.

(** C9.  Every record of the generated set is made of exactly six fields
    delimited by [" | "], each a label and a value separated by [": "],
    with the labels ID, Name, Email, Department, Salary and Hire Date in
    this order, whatever was drawn; the value of Email is
    [employee{i}@company.com] for the record of index [i]. *)
Theorem six_labelled_fields (g : Rng) :
  let recs := fst (_generate_sample_data g) in
  map fields recs = map expected_fields (drawn 1 10001 g) /\
  Forall (fun l => List.length (fields l) = 6%nat /\
                   Forall (fun f => List.length f = 2%nat) (fields l) /\
                   labels (fields l) =
                   ["ID"; "Name"; "Email"; "Department"; "Salary"; "Hire Date"])
         recs /\
  map (fun l => value_of "Email" (fields l)) recs =
    map (fun p => Some ("employee" ++ str_int (fst p) ++ "@company.com")%string)
        (drawn 1 10001 g).
Proof.
  cbv zeta.
  assert (R : forall i d, 1 <= i < 10001 -> in_bounds d ->
                fields (render i d) = expected_fields (i, d)).
  { intros i d _ (Hd & Hp & _). now apply render_fields. }
  split; [|split].
  - now apply map_records.
  - unfold _generate_sample_data. rewrite generate_range_spec.
    apply Forall_forall. intros l Hl.
    apply in_map_iff in Hl as [[i d] [<- Hin]].
    unfold render_pair. cbn [fst snd]. rewrite R.
    + repeat split. repeat constructor.
    + apply in_range. unfold drawn in Hin. eapply in_combine_l; eassumption.
    + pose proof (draws_from_in_bounds (List.length (range 1 10001)) g) as F.
      rewrite Forall_forall in F. unfold drawn in Hin.
      exact (F d (in_combine_r _ _ _ _ Hin)).
  - apply map_records. intros i d Hi Hb. now rewrite R.
Qed.

(* ===================================================================== *)
(** * The claims about the streaming handler *)
(* ===================================================================== *)

(** The call of a consumer that takes every frame, when the clock moved
    between the first and the last reading: all the records, in order, and
    nothing set on the context. *)
Lemma full_stream_completes (self : EmployeeDataService) (rq : Request)
    (ctx : Context) (w : World) :
  clock w (reads (snd (loop_of self takes_all w))) <> start_of w ->
  let c := StreamLargeData self rq ctx takes_all w in
  frames c = all_frames self /\ outcome c = Returned /\ context c = ctx.
Proof.
  intros H. cbv zeta.
  destruct (frames_takes_all self rq ctx w) as [F _].
  destruct (call_exhausted self rq ctx takes_all w) as [O C].
  { unfold loop_of. now rewrite stream_loop_takes_all. }
  split; [exact F|]. split; [exact O|].
  rewrite C. destruct (Z.eqb_spec (clock w (reads (snd (loop_of self takes_all w)))
                                   - start_of w) 0); [lia | reflexivity].
Qed.

(** On a clock that never shows the same time twice, the reading after the
    loop differs from the reading the call started from. *)
Lemma later_reading_differs (self : EmployeeDataService) (consumer : Consumer)
    (w : World) :
  (forall a b : nat, (a < b)%nat -> clock w a <> clock w b) ->
  clock w (reads (snd (loop_of self consumer w))) <> start_of w.
Proof.
  intros H E.
  pose proof (reads_stream_loop consumer (start_of w) (employees self) 0
                (entry_world self w)) as R.
  fold (loop_of self consumer w) in R.
  change (reads (entry_world self w)) with (S (reads w)) in R.
  apply (H (reads w) (reads (snd (loop_of self consumer w)))); [lia|].
  now rewrite E.
Qed.

(** The same for the service as constructed and a clock that ticks: the
    10000 frames, then a successful completion. *)
Lemma full_stream_ticking_clock (g : Rng) :
  let self := fst (fst (__init__ g ticking_clock)) in
  let w := snd (__init__ g ticking_clock) in
  let c := StreamLargeData self EmptyRequest fresh_context takes_all w in
  List.length (frames c) = Z.to_nat 10000 /\
  map (fun f => record_id (line f)) (frames c) = map Some (range 1 10001) /\
  outcome c = Returned /\
  context c = fresh_context.
Proof.
  cbv zeta.
  set (self := fst (fst (__init__ g ticking_clock))).
  set (w := snd (__init__ g ticking_clock)).
  destruct (full_stream_completes self EmptyRequest fresh_context w)
    as (F & O & C).
  { apply later_reading_differs. intros a b Hab. unfold w.
    rewrite !clock_init. cbn [ticking_clock clock]. lia. }
  rewrite F. unfold all_frames.
  split; [|split; [|split]].
  - rewrite length_map. apply length_employees_init.
  - rewrite map_map. unfold self. rewrite employees_init.
    destruct (sequential_ids_of_range 1 10001 g) as [E _]; [lia|].
    exact E.
  - exact O.
  - exact C.
Qed.

(** C2.  The code at the input where the claim fails: the service as
    constructed (any random state), a consumer that takes every frame, and
    a clock that shows the same time when the call starts and when its loop
    is over.  The call yields the 10000 frames, identifiers 1 to 10000 in
    order, all taken by the consumer; then the throughput division raises
    [ZeroDivisionError], the [except] clause catches it, and the call ends
    with the status [INTERNAL] instead of a successful completion. *)
Theorem full_stream_stopped_clock (g : Rng) :
  let self := fst (fst (__init__ g stopped_clock)) in
  let w := snd (__init__ g stopped_clock) in
  let c := StreamLargeData self EmptyRequest fresh_context takes_all w in
  List.length (frames c) = Z.to_nat 10000 /\
  map (fun f => record_id (line f)) (frames c) = map Some (range 1 10001) /\
  delivered c = frames c /\
  outcome c = Returned /\
  code (context c) = Some INTERNAL /\
  details (context c) =
    Some ("Streaming error: " ++ msg float_division_by_zero)%string.
Proof.
  cbv zeta.
  set (self := fst (fst (__init__ g stopped_clock))).
  set (w := snd (__init__ g stopped_clock)).
  destruct (frames_takes_all self EmptyRequest fresh_context w) as [F D].
  destruct (call_exhausted self EmptyRequest fresh_context takes_all w) as [O C].
  { unfold loop_of. now rewrite stream_loop_takes_all. }
  rewrite F, D. unfold all_frames.
  split; [|split; [|split; [|split]]].
  - rewrite length_map. apply length_employees_init.
  - rewrite map_map. unfold self. rewrite employees_init.
    destruct (sequential_ids_of_range 1 10001 g) as [E _]; [lia|].
    exact E.
  - reflexivity.
  - exact O.
  - rewrite C. unfold start_of, w. rewrite clock_init. split; reflexivity.
Qed.

(** C6.  Two calls against the same service object, whatever their
    requests, contexts and worlds (so also one after the other, or at the
    same time): when both consumers take every frame, both calls yield the
    same frames, which are the records of the service in order, hence the
    same number of frames and the same identifiers in the same order; and
    whatever the consumers do, each call yields an initial segment of that
    one sequence.  The handler has the service object as an argument it
    only reads. *)
Theorem calls_yield_same_frames (self : EmployeeDataService)
    (rq1 rq2 : Request) (ctx1 ctx2 : Context) (w1 w2 : World) :
  let c1 := StreamLargeData self rq1 ctx1 takes_all w1 in
  let c2 := StreamLargeData self rq2 ctx2 takes_all w2 in
  let c2' := StreamLargeData self rq2 ctx2 takes_all (world c1) in
  frames c1 = all_frames self /\
  frames c2 = frames c1 /\
  frames c2' = frames c1 /\
  List.length (frames c2) = List.length (frames c1) /\
  map (fun f => record_id (line f)) (frames c2) =
    map (fun f => record_id (line f)) (frames c1) /\
  forall consumer1 consumer2 : Consumer,
  exists k1 k2 : nat,
    frames (StreamLargeData self rq1 ctx1 consumer1 w1) =
      firstn k1 (all_frames self) /\
    frames (StreamLargeData self rq2 ctx2 consumer2 w2) =
      firstn k2 (all_frames self).
Proof.
  cbv zeta.
  destruct (frames_takes_all self rq1 ctx1 w1) as [F1 _].
  destruct (frames_takes_all self rq2 ctx2 w2) as [F2 _].
  destruct (frames_takes_all self rq2 ctx2
              (world (StreamLargeData self rq1 ctx1 takes_all w1))) as [F3 _].
  rewrite F1, F2, F3.
  split; [reflexivity|]. split; [reflexivity|]. split; [reflexivity|].
  split; [reflexivity|]. split; [reflexivity|].
  intros consumer1 consumer2.
  destruct (stream_loop_prefix consumer1 (start_of w1) (employees self) 0
              (entry_world self w1)) as [k1 H1].
  destruct (stream_loop_prefix consumer2 (start_of w2) (employees self) 0
              (entry_world self w2)) as [k2 H2].
  exists k1, k2. unfold frames. rewrite !trace_call. now split.
Qed.

(** The frames of a call whose consumer takes the frames of index below
    [k] and raises at the frame of index [k]: those up to that one are
    yielded, those before it are delivered. *)
Lemma frames_when_refused (self : EmployeeDataService) (rq : Request)
    (ctx : Context) (consumer : Consumer) (w : World) (k : nat) (e : PyExc) :
  (k < List.length (employees self))%nat ->
  (forall j, (j < k)%nat -> consumer j = Next) ->
  consumer k = Throw e ->
  let c := StreamLargeData self rq ctx consumer w in
  snd (fst (loop_of self consumer w)) = Some e /\
  frames c = firstn (S k) (all_frames self) /\
  delivered c = firstn k (all_frames self).
Proof.
  intros Hk Hnext Hthrow. cbv zeta.
  pose proof (stream_loop_throw consumer (start_of w) e k (employees self) 0
                (entry_world self w) Hk Hnext Hthrow) as L.
  fold (loop_of self consumer w) in L.
  unfold frames, delivered. rewrite trace_call, L. cbn [fst snd].
  unfold all_frames.
  split; [reflexivity|]. split.
  - rewrite map_app, map_map. cbn [fst map].
    clear - Hk. revert k Hk.
    induction (employees self) as [|x xs IH]; intros k Hk;
      [simpl in Hk; lia|].
    destruct k as [|k]; [reflexivity|].
    cbn [firstn map app nth]. f_equal. rewrite IH by (simpl in Hk; lia).
    reflexivity.
  - rewrite filter_app. cbn [filter snd accepted]. rewrite app_nil_r.
    rewrite firstn_map. clear.
    induction (firstn k (employees self)) as [|x xs IH]; [reflexivity|].
    cbn [map filter snd accepted fst]. now rewrite IH.
Qed.

(** C7, the claim as stated, refuted.  The handler writes nothing itself:
    it yields, and the framework writes.  A framework whose write of record
    5000 fails, and which then drops the generator, closes it at that
    [yield] ([GeneratorExit]).  The service as constructed: the 4999 frames
    before are delivered and nothing follows, but [except Exception] does
    not catch the exception, it leaves the handler, and no status is set. *)
Lemma failed_write_sets_no_status :
  let self := fst (fst (__init__ zero_tape ticking_clock)) in
  let w := snd (__init__ zero_tape ticking_clock) in
  let e := mkExc GeneratorExit "" in
  let c := StreamLargeData self EmptyRequest fresh_context
             (fails_at (Z.to_nat 4999) e) w in
  frames c = firstn (S (Z.to_nat 4999)) (all_frames self) /\
  delivered c = firstn (Z.to_nat 4999) (all_frames self) /\
  outcome c = Raised e /\
  context c = fresh_context /\
  code (context c) <> Some INTERNAL.
Proof.
  cbv zeta.
  set (self := fst (fst (__init__ zero_tape ticking_clock))).
  set (w := snd (__init__ zero_tape ticking_clock)).
  set (e := mkExc GeneratorExit "").
  destruct (frames_when_refused self EmptyRequest fresh_context
              (fails_at (Z.to_nat 4999) e) w (Z.to_nat 4999) e)
    as (L & F & D).
  - unfold self. rewrite length_employees_init. lia.
  - intros j Hj. unfold fails_at.
    destruct (Nat.eqb_spec j (Z.to_nat 4999)); [lia | reflexivity].
  - unfold fails_at. now rewrite Nat.eqb_refl.
  - pose proof (call_interrupted self EmptyRequest fresh_context
                  (fails_at (Z.to_nat 4999) e) w e L) as I.
    change (is_Exception e) with false in I. cbv zeta in I.
    destruct I as [O C].
    split; [exact F|]. split; [exact D|]. split; [exact O|].
    split; [exact C|]. rewrite C. discriminate.
Qed.

(** C7, amended.  The handler never writes; a frame that is not delivered
    shows at its [yield], as an exception the consumer raises there.  If
    the consumer takes the frames of index below [k] and raises [e] at the
    frame of index [k] (record [k + 1]), the remaining iteration is
    aborted: the handler has yielded the frames up to that one and no
    other, the frames delivered are exactly the [k] before it, and nothing
    is retried.  If [e] is an [Exception] the call returns with the status
    [INTERNAL] and the message [Streaming error: ] followed by the text of
    [e]; if it is not (the generator is closed), [e] leaves the handler and
    the context is as it was. *)
Theorem write_failure_aborts (self : EmployeeDataService) (rq : Request)
    (ctx : Context) (consumer : Consumer) (w : World) (k : nat) (e : PyExc) :
  (k < List.length (employees self))%nat ->
  (forall j, (j < k)%nat -> consumer j = Next) ->
  consumer k = Throw e ->
  let c := StreamLargeData self rq ctx consumer w in
  frames c = firstn (S k) (all_frames self) /\
  delivered c = firstn k (all_frames self) /\
  if is_Exception e
  then outcome c = Returned /\
       code (context c) = Some INTERNAL /\
       details (context c) = Some ("Streaming error: " ++ msg e)%string
  else outcome c = Raised e /\ context c = ctx.
Proof.
  intros Hk Hnext Hthrow. cbv zeta.
  destruct (frames_when_refused self rq ctx consumer w k e Hk Hnext Hthrow)
    as (L & F & D).
  pose proof (call_interrupted self rq ctx consumer w e L) as I.
  cbv zeta in I.
  split; [exact F|]. split; [exact D|].
  destruct (is_Exception e); destruct I as [O C].
  - split; [exact O|]. now rewrite C.
  - now split.
Qed.

(** The amended claim at the service as constructed, with the write of
    record 5000 failing with an [Exception] raised at its [yield]. *)
Lemma write_failure_aborts_witness :
  let self := fst (fst (__init__ zero_tape ticking_clock)) in
  let w := snd (__init__ zero_tape ticking_clock) in
  let e := mkExc RpcError "write failed" in
  let c := StreamLargeData self EmptyRequest fresh_context
             (fails_at (Z.to_nat 4999) e) w in
  frames c = firstn (S (Z.to_nat 4999)) (all_frames self) /\
  delivered c = firstn (Z.to_nat 4999) (all_frames self) /\
  outcome c = Returned /\
  code (context c) = Some INTERNAL /\
  details (context c) = Some "Streaming error: write failed".
Proof.
  cbv zeta.
  apply (write_failure_aborts
           (fst (fst (__init__ zero_tape ticking_clock))) EmptyRequest
           fresh_context
           (fails_at (Z.to_nat 4999) (mkExc RpcError "write failed"))
           (snd (__init__ zero_tape ticking_clock)) (Z.to_nat 4999)
           (mkExc RpcError "write failed")).
  - rewrite length_employees_init. lia.
  - intros j Hj. unfold fails_at.
    destruct (Nat.eqb_spec j (Z.to_nat 4999)); [lia | reflexivity].
  - unfold fails_at. now rewrite Nat.eqb_refl.
Defined.

(** C8.  The progress indicator is observation only.  The handler with the
    indicator and the handler without it, run against the same consumer in
    any two worlds, yield the same frames with the same answers, and their
    loops are left in the same way (exhausted, or by the same exception);
    the indicator maps a world to a world and has no access to the index,
    the records or the frames.  In a call whose consumer takes every frame
    the progress lines are printed for the record counts that are multiples
    of 2500 and for no other: for the service as constructed, at 2500,
    5000, 7500 and 10000. *)
Theorem progress_is_observation_only (self : EmployeeDataService)
    (rq : Request) (ctx : Context) (consumer : Consumer) (w w' : World) :
  trace (StreamLargeData self rq ctx consumer w) =
    trace (StreamLargeData_silent self rq ctx consumer w') /\
  frames (StreamLargeData self rq ctx consumer w) =
    frames (StreamLargeData_silent self rq ctx consumer w') /\
  (forall (start_time : Z) (i : nat) (rest : list string),
     fst (stream_loop consumer start_time i rest w) =
     fst (stream_loop_silent consumer i rest w')) /\
  progress_counts (stdout (world (StreamLargeData self rq ctx takes_all w))) =
    progress_counts (stdout w)
    ++ filter (fun n => n mod 2500 =? 0) (range 1 (len (employees self) + 1)) /\
  progress_counts (stdout (world (StreamLargeData_silent self rq ctx takes_all w))) =
    progress_counts (stdout w) /\
  (forall (g : Rng) (w0 : World),
     progress_counts
       (stdout (world (StreamLargeData (fst (fst (__init__ g w0))) rq ctx
                         takes_all (snd (__init__ g w0))))) =
     progress_counts (stdout w0) ++ [2500; 5000; 7500; 10000]).
Proof.
  pose proof (traces_agree self rq ctx consumer w w') as T.
  split; [exact T|]. split; [unfold frames; now rewrite T|].
  split; [intros; apply stream_loop_silent_same|].
  split; [apply progress_counts_call|].
  split; [apply progress_counts_call_silent|].
  intros g w0. rewrite progress_counts_call.
  unfold len. rewrite length_employees_init, Z2Nat.id by lia.
  rewrite progress_marks_10000.
  rewrite stdout_init, progress_counts_app. cbn [progress_counts].
  now rewrite app_nil_r.
Qed.

(** C10, the claim as stated, refuted.  The service as constructed, a
    consumer that closes the generator at the first [yield] (a client that
    cancels): [GeneratorExit] is not an [Exception], the [except] clause
    does not catch it, the exception leaves the handler, and nothing is set
    on the context. *)
Lemma cancellation_escapes :
  let self := fst (fst (__init__ zero_tape ticking_clock)) in
  let w := snd (__init__ zero_tape ticking_clock) in
  let e := mkExc GeneratorExit "" in
  let c := StreamLargeData self EmptyRequest fresh_context (fun _ => Throw e) w in
  outcome c = Raised e /\
  context c = fresh_context /\
  ~ completes_or_reports fresh_context c.
Proof.
  cbv zeta.
  set (self := fst (fst (__init__ zero_tape ticking_clock))).
  set (w := snd (__init__ zero_tape ticking_clock)).
  set (e := mkExc GeneratorExit "").
  assert (L : snd (fst (loop_of self (fun _ => Throw e) w)) = Some e).
  { unfold loop_of.
    pose proof (length_employees_init zero_tape ticking_clock) as N.
    fold self in N. destruct (employees self) as [|x xs];
      [simpl in N; lia | reflexivity]. }
  pose proof (call_interrupted self EmptyRequest fresh_context
                (fun _ => Throw e) w e L) as I.
  change (is_Exception e) with false in I. cbv zeta in I.
  destruct I as [O C].
  split; [exact O|]. split; [exact C|].
  intros [R _]. rewrite O in R. discriminate R.
Qed.

(** C10, amended.  What a call does is decided by the way its loop is
    left.  An exception of class [Exception] raised at a [yield] is caught:
    the call returns with the status [INTERNAL] and the message
    [Streaming error: ] followed by its text.  An exception that is not an
    [Exception] ([GeneratorExit] when the generator is closed on
    cancellation, [KeyboardInterrupt], [SystemExit]), raised by the consumer
    at a [yield], is not caught: it leaves the handler and the context is as
    it was.  When the loop is exhausted the call returns, with the context
    as it was or, if the throughput division raised, with the status
    [INTERNAL].  So a call ends by returning with the context untouched, by
    returning with the status [INTERNAL], or by an exception that is not an
    [Exception] leaving the handler; no [Exception] ever leaves it. *)
Theorem only_base_exceptions_escape (self : EmployeeDataService)
    (rq : Request) (ctx : Context) (consumer : Consumer) (w : World) :
  let c := StreamLargeData self rq ctx consumer w in
  match snd (fst (loop_of self consumer w)) with
  | Some e =>
      if is_Exception e
      then outcome c = Returned /\ context c = internal_error (msg e) ctx
      else outcome c = Raised e /\ context c = ctx /\
           exists j : nat, consumer j = Throw e
  | None =>
      outcome c = Returned /\
      (context c = ctx \/
       context c = internal_error (msg float_division_by_zero) ctx)
  end /\
  (completes_or_reports ctx c \/
   exists (e : PyExc) (j : nat),
     consumer j = Throw e /\ is_Exception e = false /\
     outcome c = Raised e /\ context c = ctx) /\
  (forall e, is_Exception e = true -> outcome c <> Raised e).
Proof.
  cbv zeta.
  destruct (snd (fst (loop_of self consumer w))) as [e|] eqn:L.
  - pose proof (call_interrupted self rq ctx consumer w e L) as I.
    cbv zeta in I.
    destruct (is_Exception e) eqn:E; destruct I as [O C].
    + split; [now split|]. split.
      * left. split; [exact O|]. right. now exists (msg e).
      * intros e' _. rewrite O. discriminate.
    + unfold loop_of in L.
      destruct (stream_loop_exception _ _ _ _ _ _ L) as [j Hj].
      split; [split; [exact O | split; [exact C | now exists j]]|]. split.
      * right. now exists e, j.
      * intros e' E'. rewrite O. intros [= ->]. congruence.
  - destruct (call_exhausted self rq ctx consumer w L) as [O C].
    split; [|split].
    + split; [exact O|]. rewrite C. destruct (_ =? 0); auto.
    + left. split; [exact O|]. rewrite C.
      destruct (_ =? 0); [right; now eexists | now left].
    + intros e' _. rewrite O. discriminate.
Qed.

(* ===================================================================== *)
(** * Further facts about the generator *)
(* ===================================================================== *)

Module FurtherGeneratorFacts.
Import Further.

Lemma advanced_advanced (a b : nat) (g : Rng) :
  advanced a (advanced b g) = advanced (a + b) g.
Proof. unfold advanced. cbn [tape pos]. f_equal. lia. Qed.

(** The loop body consumes five raw values. *)
Lemma sample_rng (g : Rng) : snd (sample g) = advanced 5 g.
Proof. reflexivity. Qed.

Lemma sample_advanced_0 (g : Rng) : sample (advanced 0 g) = sample g.
Proof. destruct g. reflexivity. Qed.

Lemma for_employees_rng (idx : list Z) (acc : list string) (g : Rng) :
  snd (for_employees idx acc g) = advanced (5 * List.length idx) g.
Proof.
  revert acc g. induction idx as [|i idx IH]; intros acc g.
  - destruct g. reflexivity.
  - cbn [for_employees]. unfold bind at 1. rewrite employee_data_render.
    rewrite IH, sample_rng, advanced_advanced. f_equal. simpl List.length. lia.
Qed.

(** The accumulator is only appended to. *)
Lemma for_employees_acc (idx : list Z) (acc : list string) (g : Rng) :
  for_employees idx acc g =
  (acc ++ fst (for_employees idx [] g), snd (for_employees idx [] g)).
Proof.
  rewrite !for_employees_rng.
  rewrite (surjective_pairing (for_employees idx acc g)).
  rewrite for_employees_rng. f_equal.
  now rewrite !for_employees_spec.
Qed.

Lemma for_employees_app (idx1 idx2 : list Z) (acc : list string) (g : Rng) :
  for_employees (idx1 ++ idx2) acc g =
  for_employees idx2 (fst (for_employees idx1 acc g))
                     (snd (for_employees idx1 acc g)).
Proof.
  revert acc g. induction idx1 as [|i idx1 IH]; intros acc g; [reflexivity|].
  cbn [app for_employees]. unfold bind.
  destruct (employee_data i g) as [e g']. apply IH.
Qed.

Lemma map_seq_from (f : nat -> Z) (n m : nat) :
  map f (seq n m) = map (fun k => f (n + k)%nat) (seq 0 m).
Proof.
  revert n. induction m as [|m IH]; intros n; [reflexivity|].
  cbn [seq map]. rewrite Nat.add_0_r. f_equal.
  rewrite IH, <- seq_shift, map_map. apply map_ext. intros k.
  f_equal. lia.
Qed.

Lemma range_split (a b c : Z) :
  a <= b <= c -> range a c = range a b ++ range b c.
Proof.
  intros H. unfold range.
  replace (Z.to_nat (c - a)) with (Z.to_nat (b - a) + Z.to_nat (c - b))%nat
    by lia.
  rewrite seq_app, map_app. f_equal.
  rewrite Nat.add_0_l, map_seq_from. apply map_ext. intros k. lia.
Qed.

Lemma nth_range (start stop : Z) (k : nat) :
  (k < Z.to_nat (stop - start))%nat ->
  nth k (range start stop) 0 = start + Z.of_nat k.
Proof.
  intros H. unfold range.
  transitivity
    (nth k (map (fun j => start + Z.of_nat j)
              (seq 0 (Z.to_nat (stop - start))))
       ((fun j => start + Z.of_nat j) 0%nat)).
  - apply nth_indep. now rewrite length_map, length_seq.
  - rewrite (map_nth (fun j => start + Z.of_nat j)).
    now rewrite seq_nth by assumption.
Qed.

Lemma nth_draws_from (n k : nat) (g : Rng) (dflt : Draws) :
  (k < n)%nat ->
  nth k (draws_from n g) dflt = fst (sample (advanced (5 * k) g)).
Proof.
  revert k g. induction n as [|n IH]; intros k g H; [lia|].
  cbn [draws_from]. pose proof (sample_rng g) as R.
  destruct (sample g) as [d g'] eqn:E. cbn [snd] in R. subst g'.
  destruct k as [|k].
  - cbn [nth]. change (5 * 0)%nat with 0%nat.
    now rewrite sample_advanced_0, E.
  - cbn [nth]. rewrite IH by lia. rewrite advanced_advanced.
    do 3 f_equal. lia.
Qed.

Lemma strongly_sorted_nodup (l : list Z) : StronglySorted Z.lt l -> NoDup l.
Proof.
  induction 1 as [|x l S IH F]; constructor; [|exact IH].
  intros Hin. rewrite Forall_forall in F. specialize (F _ Hin). lia.
Qed.

Lemma nodup_map_some (l : list Z) : NoDup l -> NoDup (map Some l).
Proof.
  induction 1 as [|x l Hx N IH]; cbn [map]; constructor; [|exact IH].
  intros Hin. apply in_map_iff in Hin as [y [[= ->] Hy]]. contradiction.
Qed.

(** ** Chosen random states *)

Lemma index_of_nth (s : string) (l : list string) :
  In s l ->
  (index_of s l < List.length l)%nat /\ nth (index_of s l) l EmptyString = s.
Proof.
  induction l as [|x l IH]; intros H; [contradiction|].
  cbn [index_of]. destruct (String.eqb_spec x s) as [->|N].
  - split; [simpl; lia | reflexivity].
  - destruct H as [->|H]; [congruence|].
    destruct (IH H) as [L E]. split; [simpl; lia | exact E].
Qed.

Lemma sample_state_for (d : Draws) :
  in_bounds d -> fst (sample (state_for d)) = d.
Proof.
  destruct d as [de po sa mo da]. unfold in_bounds.
  cbn [dept position salary month day]. intros (Hd & Hp & Hs & Hm & Hday).
  destruct (index_of_nth _ _ Hd) as [Ld Ed].
  destruct (index_of_nth _ _ Hp) as [Lp Ep].
  change (List.length departments) with 6%nat in Ld.
  change (List.length positions) with 6%nat in Lp.
  unfold sample, PyRandom.choice, PyRandom.randint, bind, ret, _randbelow,
    state_for.
  cbn [fst snd tape pos dept position salary month day].
  change (Z.of_nat (List.length departments)) with 6.
  change (Z.of_nat (List.length positions)) with 6.
  rewrite !Z.mod_small by lia.
  rewrite !Nat2Z.id, Ed, Ep. f_equal; lia.
Qed.

(** ** Checks over a range *)

Lemma holds_from_spec (test : Z -> bool) (n : nat) (z : Z) :
  holds_from test z n = true ->
  forall k : nat, (k < n)%nat -> test (z + Z.of_nat k) = true.
Proof.
  revert z. induction n as [|n IH]; intros z H k Hk; [lia|].
  cbn [holds_from] in H.
  destruct (test z) eqn:H0; [rename H into H1 | discriminate].
  destruct k as [|k].
  - now rewrite Z.add_0_r.
  - replace (z + Z.of_nat (S k)) with (z + 1 + Z.of_nat k) by lia.
    apply IH; [exact H1 | lia].
Qed.

Lemma holds_blocks_spec (test : Z -> bool) (size blocks : nat) (z : Z) :
  holds_blocks test z size blocks = true ->
  forall k : nat, (k < size * blocks)%nat -> test (z + Z.of_nat k) = true.
Proof.
  revert z. induction blocks as [|blocks IH]; intros z H k Hk; [lia|].
  cbn [holds_blocks] in H.
  destruct (holds_from test z size) eqn:H0; [|discriminate].
  destruct (Nat.lt_ge_cases k size) as [Lt|Ge].
  - now apply (holds_from_spec _ _ _ H0).
  - replace (z + Z.of_nat k)
      with (z + Z.of_nat size + Z.of_nat (k - size)) by lia.
    apply (IH _ H). lia.
Qed.

Lemma holds_on (test : Z -> bool) (lo hi z : Z) (size blocks : nat) :
  holds_blocks test lo size blocks = true ->
  hi - lo < Z.of_nat (size * blocks) ->
  lo <= z <= hi -> test z = true.
Proof.
  intros H Hn Hz.
  replace z with (lo + Z.of_nat (Z.to_nat (z - lo))) by lia.
  apply (holds_blocks_spec _ _ _ _ H). lia.
Qed.

Lemma salary_shape_checked :
  holds_blocks salary_shape 45000 1000 106 = true.
Proof. vm_compute. reflexivity. Qed.

Lemma id_width_checked :
  holds_blocks id_width 1 1000 10 = true.
Proof. vm_compute. reflexivity. Qed.

End FurtherGeneratorFacts.

(* ===================================================================== *)
(** * Further properties of the generator *)
(* ===================================================================== *)

Import Further FurtherGeneratorFacts.

(** X1.  No two records of the generated set are equal, whatever is drawn:
    the identifiers alone tell them apart. *)
Theorem records_pairwise_distinct (g : Rng) :
  NoDup (fst (_generate_sample_data g)).
Proof.
  apply (NoDup_map_inv record_id).
  destruct (sequential_ids_of_range 1 10001 g) as [E _]; [lia|].
  unfold _generate_sample_data. rewrite E.
  apply nodup_map_some, strongly_sorted_nodup, range_sorted.
Qed.

(** X2.  The generator consumes exactly five random numbers for a record
    and nothing else: after a run the random state has moved on by 50000
    raw values, and the record of index [k + 1] is what the loop body
    writes from the state moved on by [5 * k], so a record depends on its
    own five raw values only. *)
Theorem five_draws_per_record (g : Rng) :
  snd (_generate_sample_data g) = advanced (Z.to_nat 50000) g /\
  forall k : nat,
    (k < Z.to_nat 10000)%nat ->
    nth k (fst (_generate_sample_data g)) EmptyString =
    fst (employee_data (Z.of_nat k + 1) (advanced (5 * k) g)).
Proof.
  unfold _generate_sample_data, generate_range. split.
  - rewrite for_employees_rng, length_range.
    now replace (5 * Z.to_nat (10001 - 1))%nat with (Z.to_nat 50000) by lia.
  - intros k Hk. rewrite for_employees_spec. cbn [app].
    assert (L : List.length (range 1 10001) = Z.to_nat 10000)
      by (rewrite length_range; f_equal).
    rewrite L.
    transitivity
      (nth k (map render_pair
                (combine (range 1 10001) (draws_from (Z.to_nat 10000) g)))
         (render_pair (0, mkDraws EmptyString EmptyString 0 0 0))).
    { apply nth_indep.
      rewrite length_map, length_combine, length_draws_from, L.
      now rewrite Nat.min_id. }
    rewrite map_nth, combine_nth by now rewrite length_draws_from.
    rewrite nth_range by exact Hk.
    rewrite nth_draws_from by exact Hk.
    rewrite employee_data_render. unfold render_pair. cbn [fst snd].
    f_equal. lia.
Qed.

(** X3.  Generating over [range(a, c)] is generating over [range(a, b)] and
    then, from the random state this leaves, over [range(b, c)]: the records
    are appended and the states chain. *)
Theorem generation_composes (a b c : Z) (g : Rng) :
  a <= b <= c ->
  let first := generate_range a b g in
  let second := generate_range b c (snd first) in
  generate_range a c g = (fst first ++ fst second, snd second).
Proof.
  intros H. cbv zeta. unfold generate_range.
  rewrite (range_split a b c H), for_employees_app.
  now rewrite (for_employees_acc (range b c) (fst _)).
Qed.

Lemma generation_composes_witness :
  generate_range 1 10001 mixed_tape =
  (fst (generate_range 1 5001 mixed_tape)
   ++ fst (generate_range 5001 10001 (snd (generate_range 1 5001 mixed_tape))),
   snd (generate_range 5001 10001 (snd (generate_range 1 5001 mixed_tape)))).
Proof.
  apply (generation_composes 1 5001 10001 mixed_tape). lia.
Defined.

(** X4.  The bounds of the draws are attained: for every department and
    position of the lists, every salary of [45000, 150000], every month of
    [1, 12] and every day of [1, 28] there is a random state from which the
    loop body writes the record with exactly these values (and moves the
    state on by five). *)
Theorem every_draw_is_possible (i : Z) (d : Draws) :
  in_bounds d ->
  employee_data i (state_for d) = (render i d, advanced 5 (state_for d)).
Proof.
  intros H. rewrite employee_data_render, sample_rng.
  now rewrite (sample_state_for d H).
Qed.

Lemma every_draw_is_possible_witness :
  employee_data 10000 (state_for (mkDraws "Operations" "Analyst" 150000 12 28)) =
  (render 10000 (mkDraws "Operations" "Analyst" 150000 12 28),
   advanced 5 (state_for (mkDraws "Operations" "Analyst" 150000 12 28))).
Proof.
  apply (every_draw_is_possible 10000
           (mkDraws "Operations" "Analyst" 150000 12 28)).
  unfold in_bounds. simpl. repeat split; try lia; auto 10.
Defined.

(** X5.  The fields of a record agree with each other: the Name is a
    position of the list, the value of the Department field and the word
    Employee followed by the identifier without padding, and the Email is
    [employee], the same number and [@company.com]. *)
Theorem fields_agree (g : Rng) :
  Forall (fun l =>
            exists (i : Z) (d p : string),
              record_id l = Some i /\
              record_department l = Some d /\
              In p positions /\
              value_of "Name" (fields l) =
                Some (p ++ " " ++ d ++ " Employee " ++ str_int i)%string /\
              value_of "Email" (fields l) =
                Some ("employee" ++ str_int i ++ "@company.com")%string)
         (fst (_generate_sample_data g)).
Proof.
  unfold _generate_sample_data. rewrite generate_range_spec.
  apply Forall_forall. intros l Hl.
  apply in_map_iff in Hl as [[i d] [<- Hin]].
  unfold render_pair. cbn [fst snd].
  assert (Hi : 1 <= i < 10001)
    by (apply in_range; unfold drawn in Hin; eapply in_combine_l; eassumption).
  assert (Hb : in_bounds d).
  { pose proof (draws_from_in_bounds (List.length (range 1 10001)) g) as F.
    rewrite Forall_forall in F. unfold drawn in Hin.
    exact (F d (in_combine_r _ _ _ _ Hin)). }
  exists i, (dept d), (position d).
  rewrite record_id_render, record_department_render by (assumption || lia).
  destruct Hb as (Hd & Hp & _).
  rewrite render_fields by assumption.
  repeat split. exact Hp.
Qed.

(** X6.  The salary of every record is written as a currency sign, the
    thousands, one comma and the last three digits (with their leading
    zeros); it reads back as the salary. *)
Theorem salary_text_shape (g : Rng) :
  Forall (fun l =>
            exists s : Z,
              record_salary l = Some s /\
              value_of "Salary" (fields l) =
                Some ("$" ++ str_int (s / 1000) ++ ","
                      ++ fmt_0d 3 (s mod 1000))%string)
         (fst (_generate_sample_data g)).
Proof.
  unfold _generate_sample_data. rewrite generate_range_spec.
  apply Forall_forall. intros l Hl.
  apply in_map_iff in Hl as [[i d] [<- Hin]].
  unfold render_pair. cbn [fst snd].
  assert (Hb : in_bounds d).
  { pose proof (draws_from_in_bounds (List.length (range 1 10001)) g) as F.
    rewrite Forall_forall in F. unfold drawn in Hin.
    exact (F d (in_combine_r _ _ _ _ Hin)). }
  exists (salary d). rewrite record_salary_render by assumption.
  destruct Hb as (Hd & Hp & Hs & _).
  rewrite render_fields by assumption.
  change (value_of "Salary" (expected_fields (i, d)))
    with (Some ("$" ++ fmt_comma (salary d))%string).
  split; [reflexivity|]. do 2 f_equal.
  apply String.eqb_eq.
  apply (holds_on salary_shape 45000 150000 (salary d) 1000 106
           salary_shape_checked); [reflexivity | exact Hs].
Qed.

(** X7.  The identifier of every record is written on exactly five
    characters: the padding fills up to five and the largest identifier,
    10000, has five digits.  (From 100000 on the text would be longer.) *)
Theorem id_text_width (g : Rng) :
  Forall (fun l =>
            exists v : string,
              value_of "ID" (fields l) = Some v /\ String.length v = 5%nat)
         (fst (_generate_sample_data g)) /\
  fmt_0d 5 100000 = "100000".
Proof.
  split; [|reflexivity].
  unfold _generate_sample_data. rewrite generate_range_spec.
  apply Forall_forall. intros l Hl.
  apply in_map_iff in Hl as [[i d] [<- Hin]].
  unfold render_pair. cbn [fst snd].
  assert (Hi : 1 <= i < 10001)
    by (apply in_range; unfold drawn in Hin; eapply in_combine_l; eassumption).
  assert (Hb : in_bounds d).
  { pose proof (draws_from_in_bounds (List.length (range 1 10001)) g) as F.
    rewrite Forall_forall in F. unfold drawn in Hin.
    exact (F d (in_combine_r _ _ _ _ Hin)). }
  destruct Hb as (Hd & Hp & _).
  exists (fmt_0d 5 i). rewrite render_fields by assumption.
  split; [reflexivity|].
  apply Nat.eqb_eq.
  apply (holds_on id_width 1 10000 i 1000 10 id_width_checked);
    [reflexivity | lia].
Qed.

(** X8.  Constructing the service generates the records once: the object
    holds 10000 records, the random state has moved on by 50000 raw values,
    and the only effect on the console is one line with the number of
    records, 10000; the clock is not read. *)
Theorem init_generates_once (g : Rng) (w : World) :
  let self := fst (fst (__init__ g w)) in
  employees self = fst (_generate_sample_data g) /\
  List.length (employees self) = Z.to_nat 10000 /\
  snd (fst (__init__ g w)) = advanced (Z.to_nat 50000) g /\
  snd (__init__ g w) = print (LogInitialized 10000) w /\
  reads (snd (__init__ g w)) = reads w.
Proof.
  cbv zeta.
  pose proof (length_employees_init g w) as L.
  pose proof (employees_init g w) as E.
  assert (R : snd (_generate_sample_data g) = advanced (Z.to_nat 50000) g).
  { unfold _generate_sample_data, generate_range.
    rewrite for_employees_rng, length_range.
    now replace (5 * Z.to_nat (10001 - 1))%nat with (Z.to_nat 50000) by lia. }
  revert L E R. unfold __init__.
  destruct (_generate_sample_data g) as [es g']. cbn [fst snd employees].
  intros L E R. split; [reflexivity|]. split; [exact L|]. split; [exact R|].
  unfold len. rewrite L, Z2Nat.id by lia. split; reflexivity.
Qed.

(* ===================================================================== *)
(** * Further facts about the streaming handler *)
(* ===================================================================== *)

Module FurtherServerFacts.
Import Further.

Lemma closing_lines_app (a b : list LogLine) :
  closing_lines (a ++ b) = closing_lines a ++ closing_lines b.
Proof. apply filter_app. Qed.

Lemma closing_progress_indicator (start_time : Z) (i : nat) (w : World) :
  closing_lines (stdout (progress_indicator start_time i w)) =
  closing_lines (stdout w).
Proof.
  unfold progress_indicator.
  destruct ((Z.of_nat i + 1) mod 2500 =? 0); [|reflexivity].
  cbn [time_time print stdout]. rewrite closing_lines_app.
  cbn. now rewrite app_nil_r.
Qed.

(** The loop prints progress lines only. *)
Lemma closing_stream_loop (consumer : Consumer) (start_time : Z)
    (rest : list string) (i : nat) (w : World) :
  closing_lines (stdout (snd (stream_loop consumer start_time i rest w))) =
  closing_lines (stdout w).
Proof.
  revert i w. induction rest as [|e rest IH]; intros i w; [reflexivity|].
  rewrite stream_loop_cons. destruct (consumer i); [|reflexivity].
  specialize (IH (S i) (progress_indicator start_time i w)).
  destruct (stream_loop consumer start_time (S i) rest _) as [[tr exc] w2].
  cbn [snd] in *. now rewrite IH, closing_progress_indicator.
Qed.

Lemma closing_entry (self : EmployeeDataService) (w : World) :
  closing_lines (stdout (entry_world self w)) = closing_lines (stdout w).
Proof.
  unfold entry_world, time_time. cbn [print stdout snd].
  rewrite !closing_lines_app. cbn. now rewrite !app_nil_r.
Qed.

Lemma frames_of_taken (l : list string) :
  map fst (map (fun x => (mkLine x, Next)) l) = map mkLine l.
Proof. rewrite map_map. reflexivity. Qed.

Lemma delivered_of_taken (l : list string) :
  map fst (filter (fun p => accepted (snd p))
             (map (fun x => (mkLine x, Next)) l)) = map mkLine l.
Proof.
  induction l as [|x l IH]; [reflexivity|].
  cbn [map filter snd accepted fst]. now rewrite IH.
Qed.

Lemma firstn_succ_nth (l : list string) (k : nat) :
  (k < List.length l)%nat ->
  map mkLine (firstn k l) ++ [mkLine (nth k l EmptyString)] =
  firstn (S k) (map mkLine l).
Proof.
  revert k. induction l as [|x l IH]; intros k H; [simpl in H; lia|].
  destruct k as [|k]; [reflexivity|].
  cbn [firstn map app nth]. f_equal. apply IH. simpl in H. lia.
Qed.

(** The loop as a whole: the consumer takes [k] frames; then either the
    records are exhausted or the consumer raises at the next frame. *)
Lemma stream_loop_shape (consumer : Consumer) (start_time : Z)
    (rest : list string) (i : nat) (w : World) :
  exists k : nat,
    (forall j, (j < k)%nat -> consumer (i + j)%nat = Next) /\
    ((k = List.length rest /\
      fst (stream_loop consumer start_time i rest w) =
      (map (fun x => (mkLine x, Next)) rest, None)) \/
     (exists e : PyExc,
        (k < List.length rest)%nat /\ consumer (i + k)%nat = Throw e /\
        fst (stream_loop consumer start_time i rest w) =
        (map (fun x => (mkLine x, Next)) (firstn k rest)
         ++ [(mkLine (nth k rest EmptyString), Throw e)], Some e))).
Proof.
  revert i w. induction rest as [|x rest IH]; intros i w.
  - exists 0%nat. split; [intros j Hj; lia|]. left. now split.
  - rewrite stream_loop_cons. destruct (consumer i) as [|e] eqn:E.
    + destruct (IH (S i) (progress_indicator start_time i w))
        as [k [Hnext Hk]].
      destruct (stream_loop consumer start_time (S i) rest _) as [[tr exc] w2].
      cbn [fst] in *. exists (S k). split.
      * intros [|j] Hj; [now rewrite Nat.add_0_r|].
        replace (i + S j)%nat with (S i + j)%nat by lia. apply Hnext. lia.
      * destruct Hk as [[-> Hk] | [e [Hlt [Hthrow Hk]]]].
        -- left. split; [reflexivity|]. now inversion Hk.
        -- right. exists e. split; [simpl; lia|]. split.
           ++ now replace (i + S k)%nat with (S i + k)%nat by lia.
           ++ now inversion Hk.
    + exists 0%nat. split; [intros j Hj; lia|]. right. exists e.
      split; [simpl; lia|]. split; [now rewrite Nat.add_0_r | reflexivity].
Qed.

(** The world a call leaves, by the way its loop is left. *)
Lemma world_call (self : EmployeeDataService) (rq : Request) (ctx : Context)
    (consumer : Consumer) (w : World) :
  world (StreamLargeData self rq ctx consumer w) =
  let w3 := snd (loop_of self consumer w) in
  match snd (fst (loop_of self consumer w)) with
  | Some e => if is_Exception e then print (LogError (msg e)) w3 else w3
  | None =>
      match report_completion self (start_of w) w3 with
      | (Some e, w4) => print (LogError (msg e)) w4
      | (None, w4) => w4
      end
  end.
Proof.
  run_call self consumer w.
  destruct (loop_of self consumer w) as [[tr [e|]] w3]; cbn [fst snd].
  - destruct (is_Exception e); reflexivity.
  - unfold report_completion, time_time, start_of.
    destruct (clock w3 (reads w3) - clock w (reads w) =? 0); reflexivity.
Qed.

(** ** The server process *)

Import Bootstrap.

Lemma calls_of_app (a b : list Event) :
  calls_of (a ++ b) = calls_of a ++ calls_of b.
Proof.
  induction a as [|e a IH]; [reflexivity|].
  destruct e; cbn [app calls_of]; now rewrite IH.
Qed.

Lemma lines_of_app (a b : list Event) :
  lines_of (a ++ b) = lines_of a ++ lines_of b.
Proof.
  induction a as [|e a IH]; [reflexivity|].
  destruct e; cbn [app lines_of]; now rewrite IH.
Qed.

Lemma calls_of_sleeps (n : nat) :
  calls_of (repeat (Calls (sleep 1)) n) = repeat (sleep 1) n.
Proof. induction n as [|n IH]; [reflexivity|]. cbn. now rewrite IH. Qed.

Lemma lines_of_sleeps (n : nat) :
  lines_of (repeat (Calls (sleep 1)) n) = [].
Proof. induction n as [|n IH]; [reflexivity | exact IH]. Qed.

Lemma calls_events (p : Process) : calls p = calls_of (events p).
Proof. reflexivity. Qed.

Lemma out_events (p : Process) : out p = lines_of (events p).
Proof. reflexivity. Qed.

Lemma events_mk (g : Rng) (w : World) (es : list Event) :
  events (mkProcess g w es) = es.
Proof. reflexivity. Qed.

Lemma events_record (e : Event) (p : Process) :
  events (record e p) = events p ++ [e].
Proof. reflexivity. Qed.

Lemma events_call (c : ServerCall) (p : Process) :
  events (call c p) = events p ++ [Calls c].
Proof. reflexivity. Qed.

Lemma events_say (l : MainLine) (p : Process) :
  events (say l p) = events p ++ [Prints l].
Proof. reflexivity. Qed.

Lemma rng_say (l : MainLine) (p : Process) : rng (say l p) = rng p.
Proof. reflexivity. Qed.

Lemma service_world_say (l : MainLine) (p : Process) :
  service_world (say l p) = service_world p.
Proof. reflexivity. Qed.

Lemma keep_running_interrupted (n fuel k : nat) (p : Process) :
  (k <= n < k + fuel)%nat ->
  exists p' : Process,
    keep_running (Some n) fuel k p = Exited p' /\
    events p' =
      events p ++ repeat (Calls (sleep 1)) (n - k)
      ++ [Prints ShuttingDown; Calls (stop 5); Prints StoppedGracefully] /\
    rng p' = rng p /\ service_world p' = service_world p.
Proof.
  revert k p. induction fuel as [|fuel IH]; intros k p H; [lia|].
  cbn [keep_running]. destruct (Nat.eqb_spec n k) as [->|N].
  - exists (shut_down p). rewrite Nat.sub_diag.
    split; [reflexivity|]. split; [|now split].
    unfold shut_down. rewrite events_say, events_call, events_say.
    cbn [repeat app]. now rewrite <- !app_assoc.
  - destruct (IH (S k) (call (sleep 1) p)) as [p' (E & Ev & R & W)]; [lia|].
    exists p'. split; [exact E|]. split; [|now split].
    rewrite Ev, events_call, <- app_assoc. f_equal.
    replace (n - k)%nat with (S (n - S k)) by lia. reflexivity.
Qed.

Lemma keep_running_serving (interrupt : option nat) (fuel k : nat)
    (p : Process) :
  match interrupt with
  | Some n => (k + fuel <= n)%nat
  | None => True
  end ->
  keep_running interrupt fuel k p =
  Serving (mkProcess (rng p) (service_world p)
             (events p ++ repeat (Calls (sleep 1)) fuel)).
Proof.
  revert k p. induction fuel as [|fuel IH]; intros k p H.
  - cbn. rewrite app_nil_r. now destruct p.
  - cbn [keep_running].
    assert (E : keep_running interrupt fuel (S k) (call (sleep 1) p) =
                Serving (mkProcess (rng p) (service_world p)
                           (events p ++ repeat (Calls (sleep 1)) (S fuel)))).
    { rewrite IH.
      - rewrite events_call. cbn [call record rng service_world repeat].
        now rewrite <- app_assoc.
      - destruct interrupt; [lia | exact I]. }
    destruct interrupt as [n|]; [|exact E].
    destruct (Nat.eqb_spec n k); [lia | exact E].
Qed.

Lemma rng_init (g : Rng) (w : World) :
  snd (fst (__init__ g w)) = advanced (Z.to_nat 50000) g.
Proof.
  assert (R : snd (_generate_sample_data g) = advanced (Z.to_nat 50000) g).
  { unfold _generate_sample_data, generate_range.
    rewrite FurtherGeneratorFacts.for_employees_rng, length_range.
    now replace (5 * Z.to_nat (10001 - 1))%nat with (Z.to_nat 50000) by lia. }
  revert R. unfold __init__.
  now destruct (_generate_sample_data g) as [es g'].
Qed.

Lemma world_init (g : Rng) (w : World) :
  snd (__init__ g w) = print (LogInitialized 10000) w.
Proof.
  pose proof (length_employees_init g w) as L. revert L. unfold __init__.
  destruct (_generate_sample_data g) as [es g']. cbn [fst snd employees].
  intros L. unfold len. now rewrite L, Z2Nat.id by lia.
Qed.

Lemma started_spec (g : Rng) (w : World) :
  events (started g w) = startup (fst (fst (__init__ g w))) /\
  rng (started g w) = snd (fst (__init__ g w)) /\
  service_world (started g w) = snd (__init__ g w).
Proof.
  unfold started. cbn [call say record rng service_world events].
  destruct (__init__ g w) as [[svc g'] w']. repeat split.
Qed.

Lemma no_stop_in_sleeps (n : nat) :
  existsb is_stop (repeat (sleep 1) n) = false.
Proof. induction n as [|n IH]; [reflexivity | exact IH]. Qed.

Lemma no_servicer_in_sleeps (n : nat) :
  filter is_servicer (repeat (sleep 1) n) = [].
Proof. induction n as [|n IH]; [reflexivity | exact IH]. Qed.

End FurtherServerFacts.

(* ===================================================================== *)
(** * Further properties of the streaming handler *)
(* ===================================================================== *)

Import FurtherServerFacts.

(** X9.  Every call has the same shape, whatever the consumer does: the
    consumer takes the first [k] frames, which are the first [k] records in
    order; then either the records are exhausted and nothing else was
    yielded, or the consumer raised at the frame that follows, which is
    the last one yielded.  No record is skipped, repeated or yielded after
    a refusal. *)
Theorem call_shape (self : EmployeeDataService) (rq : Request) (ctx : Context)
    (consumer : Consumer) (w : World) :
  let c := StreamLargeData self rq ctx consumer w in
  exists k : nat,
    (forall j, (j < k)%nat -> consumer j = Next) /\
    delivered c = firstn k (all_frames self) /\
    ((k = List.length (employees self) /\ frames c = all_frames self) \/
     ((k < List.length (employees self))%nat /\
      frames c = firstn (S k) (all_frames self) /\
      exists e : PyExc, consumer k = Throw e)).
Proof.
  cbv zeta.
  destruct (stream_loop_shape consumer (start_of w) (employees self) 0
              (entry_world self w)) as [k [Hnext Hk]].
  fold (loop_of self consumer w) in Hk.
  exists k. split; [exact Hnext|].
  unfold frames, delivered, all_frames. rewrite trace_call.
  destruct Hk as [[-> ->] | [e [Hlt [Hthrow ->]]]]; cbn [fst].
  - rewrite delivered_of_taken, frames_of_taken.
    split; [|left; now split].
    now rewrite <- (length_map mkLine), firstn_all.
  - rewrite filter_app, !map_app, delivered_of_taken, frames_of_taken.
    cbn [filter snd accepted map fst]. rewrite app_nil_r.
    split; [now rewrite firstn_map|]. right.
    split; [exact Hlt|]. split; [now apply firstn_succ_nth|].
    now exists e.
Qed.

(** X10.  Cancellation: if the consumer takes the frames of index below [k]
    and then raises, at the frame of index [k], an exception that is not an
    [Exception] (it closes the generator), the handler has yielded the
    frames up to that one and no other, the exception leaves it, the
    context is as it was, and neither an error line nor a completion line
    is printed. *)
Theorem cancellation_stops_quietly (self : EmployeeDataService) (rq : Request)
    (ctx : Context) (consumer : Consumer) (w : World) (k : nat) (e : PyExc) :
  (k < List.length (employees self))%nat ->
  (forall j, (j < k)%nat -> consumer j = Next) ->
  consumer k = Throw e ->
  is_Exception e = false ->
  let c := StreamLargeData self rq ctx consumer w in
  frames c = firstn (S k) (all_frames self) /\
  delivered c = firstn k (all_frames self) /\
  outcome c = Raised e /\
  context c = ctx /\
  closing_lines (stdout (world c)) = closing_lines (stdout w).
Proof.
  intros Hk Hnext Hthrow He. cbv zeta.
  pose proof (stream_loop_throw consumer (start_of w) e k (employees self) 0
                (entry_world self w) Hk Hnext Hthrow) as L.
  fold (loop_of self consumer w) in L.
  pose proof (call_interrupted self rq ctx consumer w e) as I.
  pose proof (world_call self rq ctx consumer w) as W.
  cbv zeta in W. rewrite L in I, W. cbn [snd] in I, W. rewrite He in I, W.
  destruct (I eq_refl) as [O C].
  unfold frames, delivered. rewrite trace_call, L. cbn [fst].
  unfold all_frames.
  split; [|split; [|split; [|split]]].
  - rewrite map_app, frames_of_taken. cbn [map fst].
    now apply firstn_succ_nth.
  - rewrite filter_app, map_app, delivered_of_taken.
    cbn [filter snd accepted map]. rewrite app_nil_r. now rewrite firstn_map.
  - exact O.
  - exact C.
  - rewrite W. unfold loop_of.
    now rewrite closing_stream_loop, closing_entry.
Qed.

(** The service as constructed, cancelled after 100 frames. *)
Lemma cancellation_stops_quietly_witness :
  let self := fst (fst (__init__ mixed_tape ticking_clock)) in
  let w := snd (__init__ mixed_tape ticking_clock) in
  let e := mkExc GeneratorExit "" in
  let c := StreamLargeData self EmptyRequest fresh_context
             (fails_at (Z.to_nat 100) e) w in
  frames c = firstn (S (Z.to_nat 100)) (all_frames self) /\
  delivered c = firstn (Z.to_nat 100) (all_frames self) /\
  outcome c = Raised e /\
  context c = fresh_context /\
  closing_lines (stdout (world c)) = closing_lines (stdout w).
Proof.
  cbv zeta.
  apply (cancellation_stops_quietly
           (fst (fst (__init__ mixed_tape ticking_clock))) EmptyRequest
           fresh_context (fails_at (Z.to_nat 100) (mkExc GeneratorExit ""))
           (snd (__init__ mixed_tape ticking_clock)) (Z.to_nat 100)
           (mkExc GeneratorExit "")).
  - rewrite length_employees_init. lia.
  - intros j Hj. unfold fails_at.
    destruct (Nat.eqb_spec j (Z.to_nat 100)); [lia | reflexivity].
  - unfold fails_at. now rewrite Nat.eqb_refl.
  - reflexivity.
Defined.

(** X11.  The console and the status agree.  A call ends its console
    output in one of four ways: the completion line and the throughput
    line, with the context as it was; the completion line with a zero time
    and the error line of the division, with the status [INTERNAL]; the
    error line of the exception caught at a [yield], with the status
    [INTERNAL] and the same text; or nothing at all, when an exception that
    is not an [Exception] leaves the handler.  An error line is printed
    exactly when the status is set, and with the text of the details. *)
Theorem console_agrees_with_status (self : EmployeeDataService) (rq : Request)
    (ctx : Context) (consumer : Consumer) (w : World) :
  let c := StreamLargeData self rq ctx consumer w in
  let n := len (employees self) in
  exists tail : list LogLine,
    closing_lines (stdout (world c)) = closing_lines (stdout w) ++ tail /\
    ((outcome c = Returned /\ context c = ctx /\
      exists dt : Z,
        dt <> 0 /\ tail = [LogCompleted n dt; LogThroughput n dt]) \/
     (outcome c = Returned /\
      context c = internal_error (msg float_division_by_zero) ctx /\
      tail = [LogCompleted n 0; LogError (msg float_division_by_zero)]) \/
     (exists e : PyExc,
        is_Exception e = true /\ outcome c = Returned /\
        context c = internal_error (msg e) ctx /\ tail = [LogError (msg e)]) \/
     (exists e : PyExc,
        is_Exception e = false /\ outcome c = Raised e /\ context c = ctx /\
        tail = [])).
Proof.
  cbv zeta.
  pose proof (world_call self rq ctx consumer w) as W. cbv zeta in W.
  pose proof (closing_stream_loop consumer (start_of w) (employees self) 0
                (entry_world self w)) as K.
  rewrite closing_entry in K. fold (loop_of self consumer w) in K.
  pose proof (clock_stream_loop consumer (start_of w) (employees self) 0
                (entry_world self w)) as T.
  fold (loop_of self consumer w) in T.
  change (clock (entry_world self w)) with (clock w) in T.
  destruct (snd (fst (loop_of self consumer w))) as [e|] eqn:L.
  - pose proof (call_interrupted self rq ctx consumer w e L) as I.
    cbv zeta in I. destruct (is_Exception e) eqn:E; destruct I as [O C].
    + exists [LogError (msg e)]. split.
      * rewrite W. cbn [print stdout]. now rewrite closing_lines_app, K.
      * right. right. left. now exists e.
    + exists []. split.
      * now rewrite W, K, app_nil_r.
      * right. right. right. now exists e.
  - destruct (call_exhausted self rq ctx consumer w L) as [O C].
    unfold report_completion, time_time in W. rewrite T in W.
    fold (start_of w) in W.
    destruct (Z.eqb_spec
                (clock w (reads (snd (loop_of self consumer w))) - start_of w)
                0) as [Z0|NZ].
    + exists [LogCompleted (len (employees self)) 0;
              LogError (msg float_division_by_zero)]. split.
      * rewrite W. cbn [print stdout]. rewrite !closing_lines_app, K, Z0.
        cbn. now rewrite <- app_assoc.
      * right. left. auto.
    + exists [LogCompleted (len (employees self))
                (clock w (reads (snd (loop_of self consumer w))) - start_of w);
              LogThroughput (len (employees self))
                (clock w (reads (snd (loop_of self consumer w))) - start_of w)].
      split.
      * rewrite W. cbn [print stdout]. rewrite !closing_lines_app, K.
        cbn. now rewrite <- app_assoc.
      * left. split; [exact O|]. split; [exact C|].
        exists (clock w (reads (snd (loop_of self consumer w))) - start_of w).
        now split.
Qed.


(* ===================================================================== *)
(** * Properties of the server process *)
(* ===================================================================== *)

Import Bootstrap.

(** X13.  An interrupt ends the process in an orderly way: if it comes
    after [n] sleeps and the loop is watched longer than that, the function
    returns; it has created the server, built one service object (the
    records are generated once, 50000 random numbers, before the server is
    started), registered it, opened the port, printed the banner, started
    the server, printed the three start lines, slept [n] times, and then
    printed the first shutdown line, stopped the server once, with a grace
    of 5, and printed the second shutdown line, in this order. *)
Theorem interrupt_shuts_down (n fuel : nat) (g : Rng) (w : World) :
  (n < fuel)%nat ->
  exists p : Process,
    run_grpc_server (Some n) fuel g w = Exited p /\
    events p =
      startup (fst (fst (__init__ g w)))
      ++ [Prints StartedAt; Prints Ready; Prints Watching]
      ++ repeat (Calls (sleep 1)) n
      ++ [Prints ShuttingDown; Calls (stop 5); Prints StoppedGracefully] /\
    calls p =
      [grpc_server 10
         [("grpc.keepalive_time_ms", IntValue 30000);
          ("grpc.keepalive_timeout_ms", IntValue 5000);
          ("grpc.keepalive_permit_without_calls", BoolValue true)];
       add_SimpleDataServiceServicer_to_server (fst (fst (__init__ g w)));
       add_insecure_port "[::]:50051";
       start]
      ++ repeat (sleep 1) n ++ [stop 5] /\
    out p =
      [Rule 70; Title; Rule 70; ListeningOn "localhost:50051";
       ServiceName "SimpleDataService";
       MethodName "StreamLargeData (Server-side streaming)";
       Dataset "10,000"; Rule 70; StartedAt; Ready; Watching;
       ShuttingDown; StoppedGracefully] /\
    rng p = advanced (Z.to_nat 50000) g /\
    service_world p = print (LogInitialized 10000) w.
Proof.
  intros H. unfold run_grpc_server.
  destruct (started_spec g w) as (Ev & R & W).
  destruct (keep_running_interrupted n fuel 0
              (say Watching (say Ready (say StartedAt (started g w)))))
    as [p (E & Ep & Rp & Wp)]; [lia|].
  exists p. split; [exact E|].
  rewrite !events_say, Ev, Nat.sub_0_r, <- !app_assoc in Ep.
  rewrite !rng_say, R, rng_init in Rp.
  rewrite !service_world_say, W, world_init in Wp.
  split; [exact Ep|].
  split; [|split; [|split; [exact Rp | exact Wp]]].
  - rewrite calls_events, Ep, !calls_of_app, calls_of_sleeps. reflexivity.
  - rewrite out_events, Ep, !lines_of_app, lines_of_sleeps. reflexivity.
Qed.

Lemma interrupt_shuts_down_witness :
  exists p : Process,
    run_grpc_server (Some 3%nat) 4 mixed_tape ticking_clock = Exited p /\
    events p =
      startup (fst (fst (__init__ mixed_tape ticking_clock)))
      ++ [Prints StartedAt; Prints Ready; Prints Watching]
      ++ repeat (Calls (sleep 1)) 3
      ++ [Prints ShuttingDown; Calls (stop 5); Prints StoppedGracefully] /\
    calls p =
      [grpc_server 10
         [("grpc.keepalive_time_ms", IntValue 30000);
          ("grpc.keepalive_timeout_ms", IntValue 5000);
          ("grpc.keepalive_permit_without_calls", BoolValue true)];
       add_SimpleDataServiceServicer_to_server
         (fst (fst (__init__ mixed_tape ticking_clock)));
       add_insecure_port "[::]:50051";
       start]
      ++ repeat (sleep 1) 3 ++ [stop 5] /\
    out p =
      [Rule 70; Title; Rule 70; ListeningOn "localhost:50051";
       ServiceName "SimpleDataService";
       MethodName "StreamLargeData (Server-side streaming)";
       Dataset "10,000"; Rule 70; StartedAt; Ready; Watching;
       ShuttingDown; StoppedGracefully] /\
    rng p = advanced (Z.to_nat 50000) mixed_tape /\
    service_world p = print (LogInitialized 10000) ticking_clock.
Proof.
  apply (interrupt_shuts_down 3 4 mixed_tape ticking_clock). lia.
Defined.

(** X14.  Without an interrupt the function never returns and never stops
    the server: however long its loop is watched, it is still serving, it
    has registered exactly one service object, it has only slept since the
    server was started, and it has printed nothing after the three lines
    that follow the start.  An interrupt that has not come yet changes
    nothing. *)
Theorem serves_until_interrupted (fuel : nat) (g : Rng) (w : World) :
  (exists p : Process,
     run_grpc_server None fuel g w = Serving p /\
     calls p = calls (started g w) ++ repeat (sleep 1) fuel /\
     existsb is_stop (calls p) = false /\
     List.length (filter is_servicer (calls p)) = 1%nat /\
     out p = out (started g w) ++ [StartedAt; Ready; Watching]) /\
  (forall n : nat,
     (fuel <= n)%nat ->
     run_grpc_server (Some n) fuel g w = run_grpc_server None fuel g w).
Proof.
  split.
  - unfold run_grpc_server. rewrite keep_running_serving by exact I.
    eexists. split; [reflexivity|].
    rewrite !calls_events, !out_events, events_mk, !events_say.
    rewrite !calls_of_app, !lines_of_app, calls_of_sleeps, lines_of_sleeps.
    cbn [calls_of lines_of app]. rewrite !app_nil_r.
    destruct (started_spec g w) as (Ev & _ & _).
    split; [reflexivity|].
    rewrite Ev, existsb_app, filter_app, no_stop_in_sleeps,
      no_servicer_in_sleeps.
    split; [reflexivity|]. split; [reflexivity|]. reflexivity.
  - intros n H. unfold run_grpc_server.
    rewrite (keep_running_serving (Some n)) by (simpl; lia).
    now rewrite (keep_running_serving None) by exact I.
Qed.
